(** * NYC taxi dashboard (app.py): filters and aggregate queries

    A shallow embedding of the query core of [app.py]: the derived columns,
    the three filter functions and the five chart constructors, followed by
    the properties of them that the specification states.

    Conventions of the embedding.
    - A data frame is a [list] of rows, in row order.
    - A [datetime64] value is the integer count of nanoseconds since
      1970-01-01T00:00 (no time zone); a [datetime.date] is the integer count
      of days since 1970-01-01.
    - The money columns ([fare_amount], [total_amount]) are binary64 floats,
      Rocq's primitive [float]: the engine's AVG adds and divides in floating
      point.  [trip_distance] holds the exact rational value of each float
      ([Q]); the histogram sorts, compares and interpolates it.  NaN, where
      pandas produces one from an empty column, is [None].
    - The query engine reads a [datetime64[ns]] column as TIMESTAMP_NS and
      casts it to TIMESTAMP, in microseconds, for its date-part functions;
      the cast rounds, and the two extreme values are the engine's infinities.
      A missing value of the engine (NULL) is [None].
    - An SQL query is the composition of its clauses: GROUP BY, the
      aggregates of the select list, ORDER BY, LIMIT.  The engine leaves the
      order of groups and of rows with equal sort keys open: this model takes
      groups in order of first appearance and a stable sort.
    - A plotly figure is the record of the arguments the chart constructor
      receives: the frame it draws and its options.  Drawing (and, for the
      histogram, binning) happens in the plotting library and is not part of
      the program. *)

From Stdlib Require Import List ZArith QArith Qround String Bool Lia Arith.
From Stdlib Require Import Permutation Sorted RelationClasses Morphisms.
From Stdlib Require Import Lqa.
From Stdlib Require Import PrimFloat Uint63.
Import ListNotations.

Set Implicit Arguments.

Local Open Scope string_scope.
Local Open Scope Z_scope.

(* ================================================================== *)
(** * Part I: the program *)
(* ================================================================== *)

(** ** Timestamps *)

Definition Timestamp := Z.
Definition Date := Z.

Definition ns_per_hour : Z := 3600000000000.
Definition ns_per_day : Z := 86400000000000.

(** [Series.dt.date]: the calendar date, time of day dropped. *)
Definition dt_date (t : Timestamp) : Date := t / ns_per_day.

(** [Series.dt.hour]: the hour of the day, 0 to 23. *)
Definition dt_hour (t : Timestamp) : Z := (t / ns_per_hour) mod 24.

(** ** Timestamps in the query engine *)

(** The greatest TIMESTAMP_NS value is the engine's [infinity], its negation
    the engine's [-infinity]; they are [pd.Timestamp.max] and
    [pd.Timestamp.min]. *)
Definition int64_max : Z := 9223372036854775807.

Definition IsFinite (t : Timestamp) : bool :=
  negb ((t =? int64_max) || (t =? - int64_max)).

(** The engine's rounding of an epoch count to a coarser unit, away from the
    epoch: halve the scale, divide, step one further from zero, halve.  Its
    divisions are those of C++, which truncate ([Z.quot]). *)
Definition GetEpochRounded (input power_of_ten : Z) : Z :=
  let scaling := Z.quot power_of_ten 2 in
  let scaled := Z.quot input scaling in
  let stepped := if scaled <? 0 then scaled - 1 else scaled + 1 in
  Z.quot stepped 2.

(** The cast from TIMESTAMP_NS to TIMESTAMP: microseconds since the epoch. *)
Definition CastTimestampNsToUs (t : Timestamp) : Z := GetEpochRounded t 1000.

Definition us_per_hour : Z := 3600000000.
Definition us_per_day : Z := 86400000000.

(** SQL [HOUR]: the hour of the day, 0 to 23, of the cast value; NULL for an
    infinite timestamp. *)
Definition HOUR (t : Timestamp) : option Z :=
  if IsFinite t then Some ((CastTimestampNsToUs t / us_per_hour) mod 24) else None.

Definition day_names : list string :=
  ["Monday"; "Tuesday"; "Wednesday"; "Thursday"; "Friday"; "Saturday"; "Sunday"].

(** Day of the week of a TIMESTAMP with Monday = 0; 1970-01-01 was a
    Thursday. *)
Definition weekday (us : Z) : Z := (us / us_per_day + 3) mod 7.

(** SQL [DAYNAME]: the English name of the day of the cast value; NULL for
    an infinite timestamp. *)
Definition DAYNAME (t : Timestamp) : option string :=
  if IsFinite t
  then Some (nth (Z.to_nat (weekday (CastTimestampNsToUs t))) day_names "")
  else None.

(** ** Rows *)

(** A row of [Transformed_TripData.parquet], restricted to the columns the
    program reads. *)
Record RawTrip := mkRawTrip {
  raw_pickup_datetime : Timestamp;
  raw_dropoff_datetime : Timestamp;
  raw_PU_Zone : string;
  raw_fare_amount : float;
  raw_total_amount : float;
  raw_trip_distance : Q;
  raw_payment_type : option Z
}.

(** A row of [df] once the columns [pickup_hour] and [payment_label] have
    been added. *)
Record Trip := mkTrip {
  tpep_pickup_datetime : Timestamp;
  tpep_dropoff_datetime : Timestamp;
  PU_Zone : string;
  fare_amount : float;
  total_amount : float;
  trip_distance : Q;
  payment_type : option Z;
  pickup_hour : Z;
  payment_label : string
}.

Definition DataFrame := list Trip.

(** ** Derived columns *)

(** A Python [dict] with integer keys, as an association list. *)
Fixpoint dict_get (d : list (Z * string)) (k : Z) : option string :=
  match d with
  | [] => None
  | (k', v) :: d' => if k' =? k then Some v else dict_get d' k
  end.

Definition payment_map : list (Z * string) :=
  [(1, "Credit Card"); (2, "Cash"); (3, "No Charge"); (4, "Dispute")].

(** [Series.map(d)] on one value: a missing value stays missing, a key that
    the dict lacks becomes missing. *)
Definition series_map (d : list (Z * string)) (v : option Z) : option string :=
  match v with
  | None => None
  | Some k => dict_get d k
  end.

(** [Series.fillna(s)] on one value. *)
Definition fillna (s : string) (v : option string) : string :=
  match v with
  | Some x => x
  | None => s
  end.

(** [df['payment_type'].map(payment_map).fillna('Unknown')] on one value. *)
Definition label_of_payment_type (pt : option Z) : string :=
  fillna "Unknown" (series_map payment_map pt).

(** The two column assignments of the script, on one row. *)
Definition derive (r : RawTrip) : Trip :=
  {| tpep_pickup_datetime := raw_pickup_datetime r;
     tpep_dropoff_datetime := raw_dropoff_datetime r;
     PU_Zone := raw_PU_Zone r;
     fare_amount := raw_fare_amount r;
     total_amount := raw_total_amount r;
     trip_distance := raw_trip_distance r;
     payment_type := raw_payment_type r;
     pickup_hour := dt_hour (raw_pickup_datetime r);
     payment_label := label_of_payment_type (raw_payment_type r) |}.

Definition load (raw : list RawTrip) : DataFrame := map derive raw.

(** ** Filter functions *)

Definition filterDate (df : DataFrame) (start end_ : Date) : DataFrame :=
  filter (fun r => (dt_date (tpep_pickup_datetime r) >=? start)
                   && (dt_date (tpep_pickup_datetime r) <=? end_)) df.

Definition filterHour (df : DataFrame) (range : Z * Z) : DataFrame :=
  filter (fun r => (pickup_hour r >=? fst range)
                   && (pickup_hour r <=? snd range)) df.

(** [Series.isin(values)] on one value. *)
Definition isin (values : list string) (s : string) : bool :=
  existsb (String.eqb s) values.

Definition filterPaymentType (df : DataFrame) (selection : list string) : DataFrame :=
  filter (fun r => isin selection (payment_label r)) df.

(** ** Query clauses *)

(** Keys of a GROUP BY: a type with a decidable equality. *)
Class EqKey (K : Type) := {
  keyb : K -> K -> bool;
  keyb_spec : forall x y : K, reflect (x = y) (keyb x y)
}.

#[export] Instance EqKey_string : EqKey string :=
  {| keyb := String.eqb; keyb_spec := String.eqb_spec |}.

#[export] Instance EqKey_Z : EqKey Z :=
  {| keyb := Z.eqb; keyb_spec := Z.eqb_spec |}.

Definition pairb {A B : Type} `{EqKey A} `{EqKey B} (p q : A * B) : bool :=
  keyb (fst p) (fst q) && keyb (snd p) (snd q).

#[export] Instance EqKey_pair {A B : Type} `{EqKey A} `{EqKey B} : EqKey (A * B).
Proof.
  refine {| keyb := pairb |}.
  intros [a b] [a' b']; unfold pairb; simpl.
  destruct (keyb_spec a a') as [-> | Ha]; simpl.
  - destruct (keyb_spec b b') as [-> | Hb]; constructor; congruence.
  - constructor; congruence.
Defined.

(** A nullable key: NULLs form one group. *)
Definition optionb {A : Type} `{EqKey A} (x y : option A) : bool :=
  match x, y with
  | Some a, Some b => keyb a b
  | None, None => true
  | _, _ => false
  end.

#[export] Instance EqKey_option {A : Type} `{EqKey A} : EqKey (option A).
Proof.
  refine {| keyb := optionb |}.
  intros [a |] [b |]; unfold optionb; try (constructor; congruence).
  destruct (keyb_spec a b) as [-> | Hab]; constructor; congruence.
Defined.

Section Clauses.
Context {Row K : Type} `{EqKey K}.

(** The distinct values of a column, in order of first appearance
    ([Series.unique], and the groups of a GROUP BY). *)
Fixpoint distinct (l : list K) : list K :=
  match l with
  | [] => []
  | x :: t => x :: filter (fun y => negb (keyb x y)) (distinct t)
  end.

(** The rows of one group. *)
Definition group_rows (key : Row -> K) (k : K) (rows : list Row) : list Row :=
  filter (fun r => keyb (key r) k) rows.

(** [GROUP BY key]: one entry per distinct key, with the rows of its group. *)
Definition group_by (key : Row -> K) (rows : list Row) : list (K * list Row) :=
  map (fun k => (k, group_rows key k rows)) (distinct (map key rows)).
End Clauses.

Section Sorting.
Context {A : Type}.
Variable leb : A -> A -> bool.

Fixpoint insert_sorted (x : A) (l : list A) : list A :=
  match l with
  | [] => [x]
  | y :: t => if leb x y then x :: y :: t else y :: insert_sorted x t
  end.

(** [ORDER BY], as a stable insertion sort: [leb x y] says that [x] may
    stand before [y]. *)
Fixpoint order_by (l : list A) : list A :=
  match l with
  | [] => []
  | x :: t => insert_sorted x (order_by t)
  end.
End Sorting.

(** [LIMIT n]. *)
Definition limit {A : Type} (n : nat) (l : list A) : list A := firstn n l.

(** [COUNT( * )] of a group. *)
Definition COUNT {A : Type} (g : list A) : nat := List.length g.

(** A float64 column as the engine scans it from the frame: NaN is NULL,
    and an aggregate skips it. *)
Definition non_null (l : list float) : list float :=
  filter (fun x => negb (PrimFloat.is_nan x)) l.

(** The row count of a group as a float64. *)
Definition float_of_count (n : nat) : float :=
  PrimFloat.of_uint63 (Uint63.of_Z (Z.of_nat n)).

(** [AVG(c)] of a group: the non-NULL values are added one by one, in row
    order as a scan on one thread meets them, to a float64 sum that starts
    at 0, and the sum is divided by their number; NULL when the group has no
    non-NULL value. *)
Definition AVG (l : list float) : option float :=
  match non_null l with
  | [] => None
  | x :: t =>
      Some (PrimFloat.div (fold_left PrimFloat.add (x :: t) 0%float)
                          (float_of_count (List.length (x :: t))))
  end.

(** [ORDER BY c] on a nullable integer column: ascending, NULLs last. *)
Definition nulls_last_leb (a b : option Z) : bool :=
  match a, b with
  | Some x, Some y => x <=? y
  | Some _, None => true
  | None, Some _ => false
  | None, None => true
  end.

(** ** Figures *)

Inductive ChartKind := Bar | Line | Histogram | Pie | DensityHeatmap.

(** What a [plotly.express] constructor is given: the frame to draw and the
    options the program sets. *)
Record Figure (R : Type) := mkFigure {
  chart : ChartKind;
  data_frame : list R;
  title : string;
  nbins : option Z;
  category_orders : list string
}.

(** ** Chart constructors *)

(** SELECT PU_Zone, COUNT( * ) AS Number_Of_Trips FROM df GROUP BY PU_Zone
    ORDER BY Number_Of_Trips DESC LIMIT 10 *)
Definition constructBar_query (df : DataFrame) : list (string * nat) :=
  limit 10
    (order_by (fun a b => (snd b <=? snd a)%nat)
       (map (fun g => (fst g, COUNT (snd g))) (group_by PU_Zone df))).

Definition constructBar (df : DataFrame) : Figure (string * nat) :=
  {| chart := Bar;
     data_frame := constructBar_query df;
     title := "Number of Trips vs PU_Zone";
     nbins := None;
     category_orders := [] |}.

(** SELECT HOUR(tpep_dropoff_datetime) AS hour, AVG(fare_amount) AS avg_fare
    FROM df GROUP BY hour ORDER BY hour *)
Definition constructLine_query (df : DataFrame) : list (option Z * option float) :=
  order_by (fun a b => nulls_last_leb (fst a) (fst b))
    (map (fun g => (fst g, AVG (map fare_amount (snd g))))
       (group_by (fun r => HOUR (tpep_dropoff_datetime r)) df)).

Definition constructLine (df : DataFrame) : Figure (option Z * option float) :=
  {| chart := Line;
     data_frame := constructLine_query df;
     title := "Chart Showing Average Fare($) by Hour of the Day";
     nbins := None;
     category_orders := [] |}.

(** [Series.quantile(q)] with the default linear interpolation: on the
    values in ascending order, the position [(n-1)*q] is split into the index
    below it and a fraction, and the result lies that fraction of the way
    from the value at the index to the next one.  An empty series gives NaN. *)
Definition quantile (values : list Q) (q : Q) : option Q :=
  let sorted := order_by Qle_bool values in
  let n := Z.of_nat (List.length sorted) in
  if n =? 0 then None
  else
    let virtual := (inject_Z (n - 1) * q)%Q in
    let previous := Qfloor virtual in
    let next := Z.min (previous + 1) (n - 1) in
    let gamma := (virtual - inject_Z previous)%Q in
    match nth_error sorted (Z.to_nat previous), nth_error sorted (Z.to_nat next) with
    | Some a, Some b => Some (a + (b - a) * gamma)%Q
    | _, _ => None
    end.

(** [x <= y] on floats where [y] may be NaN: a comparison with NaN is false. *)
Definition le_nan (x : Q) (y : option Q) : bool :=
  match y with
  | Some t => Qle_bool x t
  | None => false
  end.

Definition constructHist (df : DataFrame) : Figure Trip :=
  let max_distance := quantile (map trip_distance df) (99 # 100) in
  {| chart := Histogram;
     data_frame := filter (fun r => le_nan (trip_distance r) max_distance) df;
     title := "Distribution of Trip Distances in Miles";
     nbins := Some 285;
     category_orders := [] |}.

(** [df['payment_label'].value_counts().reset_index()]: the count of every
    label, largest first. *)
Definition constructPie_result (df : DataFrame) : list (string * nat) :=
  order_by (fun a b => (snd b <=? snd a)%nat)
    (map (fun g => (fst g, COUNT (snd g))) (group_by payment_label df)).

Definition constructPie (df : DataFrame) : Figure (string * nat) :=
  {| chart := Pie;
     data_frame := constructPie_result df;
     title := "Breakdown of Payment Types";
     nbins := None;
     category_orders := [] |}.

(** SELECT DAYNAME(tpep_pickup_datetime) AS day_of_week,
    HOUR(tpep_pickup_datetime) AS hour, COUNT( * ) AS trip_count
    FROM df GROUP BY day_of_week, hour ORDER BY hour *)
Definition constructHeat_query (df : DataFrame)
    : list (option string * option Z * nat) :=
  order_by (fun a b => nulls_last_leb (snd (fst a)) (snd (fst b)))
    (map (fun g => (fst g, COUNT (snd g)))
       (group_by (fun r => (DAYNAME (tpep_pickup_datetime r),
                            HOUR (tpep_pickup_datetime r))) df)).

Definition day_order : list string :=
  ["Monday"; "Tuesday"; "Wednesday"; "Thursday"; "Friday"; "Saturday"; "Sunday"].

Definition constructHeat (df : DataFrame) : Figure (option string * option Z * nat) :=
  {| chart := DensityHeatmap;
     data_frame := constructHeat_query df;
     title := "Weekly Trip Patterns (Day vs. Hour)";
     nbins := None;
     category_orders := day_order |}.

(** ** The dashboard *)

(** [df['payment_label'].unique().tolist()] *)
Definition available_payments (df : DataFrame) : list string :=
  distinct (map payment_label df).

(** The three filter calls of the script, in its order. *)
Definition filtering (df : DataFrame) (dstart dend : Date) (hrange : Z * Z)
    (selected_payments : list string) : DataFrame :=
  filterPaymentType (filterHour (filterDate df dstart dend) hrange) selected_payments.

(** [Series.min()] and [Series.max()] of a timestamp column; NaT for an
    empty one. *)
Definition series_min (l : list Timestamp) : option Timestamp :=
  match l with
  | [] => None
  | x :: t => Some (fold_left Z.min t x)
  end.

Definition series_max (l : list Timestamp) : option Timestamp :=
  match l with
  | [] => None
  | x :: t => Some (fold_left Z.max t x)
  end.

(** [df['tpep_pickup_datetime'].min().date()] and the same with [max]: the
    bounds and the default value of the date picker. *)
Definition min_date (df : DataFrame) : option Date :=
  option_map dt_date (series_min (map tpep_pickup_datetime df)).

Definition max_date (df : DataFrame) : option Date :=
  option_map dt_date (series_max (map tpep_pickup_datetime df)).

(** The default value of the hour slider. *)
Definition default_hrange : Z * Z := (0, 23).

(** ** Sample data *)

(** A timestamp given as hours since 1970-01-01T00:00, a Thursday. *)
Definition at_hour (n : Z) : Timestamp := n * ns_per_hour.

Definition trip (pickup dropoff : Timestamp) (zone : string) (fare : float)
    (distance : Q) (ptype : option Z) : Trip :=
  derive (mkRawTrip pickup dropoff zone fare fare distance ptype).

Definition sample : DataFrame :=
  [ trip (at_hour 4) (at_hour 5) "A" 10 5 (Some 2);
    trip (at_hour 5) (at_hour 5) "A" 20 5 (Some 1);
    trip (at_hour 30) (at_hour 31) "B" 30 5 (Some 2) ].

(** ** Notions used to state the properties *)

(** The hours of a day, 0 to 23, in ascending order. *)
Definition hours_of_day : list Z := map Z.of_nat (seq 0 24).

(** The hour of the day of an instant, 0 to 23: the whole hours since the
    epoch, modulo 24. *)
Definition hour_of_day (t : Timestamp) : Z := (t / 3600000000000) mod 24.

(** The name of the day of the week of an instant: the whole days since
    1970-01-01, a Thursday, modulo 7. *)
Definition day_of_week (t : Timestamp) : string :=
  match (t / 86400000000000) mod 7 with
  | 0 => "Thursday"
  | 1 => "Friday"
  | 2 => "Saturday"
  | 3 => "Sunday"
  | 4 => "Monday"
  | 5 => "Tuesday"
  | _ => "Wednesday"
  end.

(** An instant that is a whole number of microseconds. *)
Definition whole_microseconds (t : Timestamp) : Prop := t mod 1000 = 0.

(** An instant rounded to a whole number of microseconds, a half going away
    from the epoch. *)
Definition nearest_microsecond (t : Timestamp) : Timestamp :=
  if 0 <=? t then 1000 * ((t + 500) / 1000) else - (1000 * ((500 - t) / 1000)).

(** The two extreme timestamps of the frame, 2262-04-11T23:47:16.854775807
    and 1677-09-21T00:12:43.145224193. *)
Definition extreme (t : Timestamp) : bool :=
  (t =? 9223372036854775807) || (t =? -9223372036854775807).

(** The instant the query engine takes a timestamp of the frame for: none for
    the two extreme ones, otherwise the nearest microsecond. *)
Definition as_engine_reads (t : Timestamp) : option Timestamp :=
  if extreme t then None else Some (nearest_microsecond t).


(** The cell of the heatmap a record falls in. *)
Definition pickup_cell (r : Trip) : option string * option Z :=
  (option_map day_of_week (as_engine_reads (tpep_pickup_datetime r)),
   option_map hour_of_day (as_engine_reads (tpep_pickup_datetime r))).








(** [Subseq l1 l2]: [l1] is [l2] with some rows left out, the others in
    their order and multiplicity. *)
Inductive Subseq {A : Type} : list A -> list A -> Prop :=
| Subseq_nil : Subseq [] []
| Subseq_skip : forall x l1 l2, Subseq l1 l2 -> Subseq l1 (x :: l2)
| Subseq_take : forall x l1 l2, Subseq l1 l2 -> Subseq (x :: l1) (x :: l2).

(** The distances a histogram figure draws. *)
Definition hist_values (fig : Figure Trip) : list Q :=
  map trip_distance (data_frame fig).

(** The degenerate domains of the specification: nothing to draw, or all
    values equal. *)
Definition degenerate (l : list Q) : Prop :=
  forall x y, In x l -> In y l -> (x == y)%Q.

Definition degenerateb (l : list Q) : bool :=
  match l with
  | [] => true
  | x :: t => forallb (Qeq_bool x) t
  end.

(** What a histogram constructor asks of the plotting library, the records
    apart: the kind of chart and the number of bins. *)
Definition request (fig : Figure Trip) : ChartKind * option Z :=
  (chart fig, nbins fig).

(** A constructor is explicitly guarded against the degenerate domain when it
    treats it apart: what it asks for on a degenerate domain is not what it
    asks for on any other. *)
Definition explicitly_guarded (build : DataFrame -> Figure Trip) : Prop :=
  forall df df',
    degenerate (hist_values (build df)) ->
    ~ degenerate (hist_values (build df')) ->
    request (build df) <> request (build df').

(** The guard the specification gives as its example: a single bin holding
    all the records when the domain is degenerate. *)
Definition constructHist_single_bin_spec (df : DataFrame) : Figure Trip :=
  let fig := constructHist df in
  if degenerateb (hist_values fig)
  then {| chart := Histogram;
          data_frame := data_frame fig;
          title := title fig;
          nbins := Some 1;
          category_orders := category_orders fig |}
  else fig.

(* ================================================================== *)
(** * Part II: properties *)
(* ================================================================== *)

(** ** Boolean filters *)

Section FilterFacts.
Context {A : Type}.
Implicit Types (f g : A -> bool) (l : list A).

Lemma Subseq_incl l1 l2 : Subseq l1 l2 -> incl l1 l2.
Proof.
  induction 1 as [| x l1 l2 _ IH | x l1 l2 _ IH]; intros y Hy.
  - exact Hy.
  - right; apply IH, Hy.
  - destruct Hy as [-> | Hy]; [now left | right; apply IH, Hy].
Qed.

Lemma Subseq_length l1 l2 : Subseq l1 l2 -> (List.length l1 <= List.length l2)%nat.
Proof. induction 1; simpl; lia. Qed.

Lemma filter_Subseq f l : Subseq (filter f l) l.
Proof.
  induction l as [| x l IH]; simpl.
  - constructor.
  - destruct (f x); now constructor.
Qed.

Lemma filter_idem f l : filter f (filter f l) = filter f l.
Proof.
  induction l as [| x l IH]; simpl; [reflexivity |].
  destruct (f x) eqn:E; simpl; [rewrite E, IH |]; auto.
Qed.

Lemma filter_swap f g l : filter f (filter g l) = filter g (filter f l).
Proof.
  induction l as [| x l IH]; simpl; [reflexivity |].
  destruct (g x) eqn:Eg, (f x) eqn:Ef; simpl; rewrite ?Eg, ?Ef, IH; reflexivity.
Qed.

Lemma filter_all f l : (forall x, In x l -> f x = true) -> filter f l = l.
Proof.
  induction l as [| x l IH]; simpl; intros Hall; [reflexivity |].
  rewrite (Hall x (or_introl eq_refl)), IH; auto.
Qed.

Lemma filter_none f l : (forall x, In x l -> f x = false) -> filter f l = [].
Proof.
  induction l as [| x l IH]; simpl; intros Hnone; [reflexivity |].
  rewrite (Hnone x (or_introl eq_refl)); auto.
Qed.
End FilterFacts.

Lemma isin_In (values : list string) (s : string) :
  isin values s = true <-> In s values.
Proof.
  unfold isin; rewrite existsb_exists; split.
  - intros (v & Hv & E); apply String.eqb_eq in E; now subst.
  - intros Hs; exists s; split; [assumption | apply String.eqb_refl].
Qed.

(** ** Distinct values *)

Section DistinctFacts.
Context {K : Type} `{EqKey K}.
Implicit Types (k : K) (l : list K).

Lemma keyb_refl k : keyb k k = true.
Proof. destruct (keyb_spec k k); congruence. Qed.

Lemma keyb_eq k k' : keyb k k' = true <-> k = k'.
Proof. destruct (keyb_spec k k'); split; congruence. Qed.

Lemma keyb_neq k k' : keyb k k' = false <-> k <> k'.
Proof. destruct (keyb_spec k k'); split; congruence. Qed.

Lemma In_distinct k l : In k (distinct l) <-> In k l.
Proof.
  induction l as [| x l IH]; simpl; [tauto |].
  rewrite filter_In, IH, negb_true_iff, keyb_neq.
  destruct (keyb_spec x k) as [-> | Hne]; [tauto |].
  split; [tauto |].
  intros [-> | Hk]; [congruence | auto].
Qed.

Lemma NoDup_distinct l : NoDup (distinct l).
Proof.
  induction l as [| x l IH]; simpl; constructor.
  - rewrite filter_In, negb_true_iff, keyb_neq; tauto.
  - now apply NoDup_filter.
Qed.

Lemma distinct_length l : (List.length (distinct l) <= List.length l)%nat.
Proof.
  induction l as [| x l IH]; simpl; [lia |].
  pose proof (Subseq_length (filter_Subseq (fun y => negb (keyb x y)) (distinct l))).
  lia.
Qed.
End DistinctFacts.

(** ** The filter stage *)

Lemma filterDate_In (df : DataFrame) (start end_ : Date) (r : Trip) :
  In r (filterDate df start end_) <->
  In r df /\ start <= dt_date (tpep_pickup_datetime r) <= end_.
Proof.
  unfold filterDate; rewrite filter_In, andb_true_iff, Z.geb_le, Z.leb_le; tauto.
Qed.

Lemma filterHour_In (df : DataFrame) (range : Z * Z) (r : Trip) :
  In r (filterHour df range) <->
  In r df /\ fst range <= pickup_hour r <= snd range.
Proof.
  unfold filterHour; rewrite filter_In, andb_true_iff, Z.geb_le, Z.leb_le; tauto.
Qed.

Lemma filterPaymentType_In (df : DataFrame) (selection : list string) (r : Trip) :
  In r (filterPaymentType df selection) <->
  In r df /\ In (payment_label r) selection.
Proof. unfold filterPaymentType; rewrite filter_In, isin_In; tauto. Qed.

(** C4. Each of the three filters returns a sub-sequence of the record set
    it is given, so every row of the result is a row of the input and none is
    made up; and filtering the result again with the same constraint changes
    nothing. *)
Theorem filters_subset_idempotent
    (R : DataFrame) (start end_ : Date) (range : Z * Z) (selection : list string) :
  (Subseq (filterDate R start end_) R
   /\ incl (filterDate R start end_) R
   /\ filterDate (filterDate R start end_) start end_ = filterDate R start end_)
  /\ (Subseq (filterHour R range) R
      /\ incl (filterHour R range) R
      /\ filterHour (filterHour R range) range = filterHour R range)
  /\ (Subseq (filterPaymentType R selection) R
      /\ incl (filterPaymentType R selection) R
      /\ filterPaymentType (filterPaymentType R selection) selection
         = filterPaymentType R selection).
Proof.
  unfold filterDate, filterHour, filterPaymentType.
  repeat split;
    first [ apply filter_Subseq
          | apply Subseq_incl, filter_Subseq
          | apply filter_idem ].
Qed.

(** C5. With the three constraints fixed, the six orders in which the date,
    hour and payment filters can be applied all give the same record set. *)
Theorem filters_order_independent
    (df : DataFrame) (start end_ : Date) (range : Z * Z) (selection : list string) :
  let D := fun x => filterDate x start end_ in
  let H := fun x => filterHour x range in
  let P := fun x => filterPaymentType x selection in
  let result := P (H (D df)) in
  P (D (H df)) = result
  /\ H (P (D df)) = result
  /\ H (D (P df)) = result
  /\ D (P (H df)) = result
  /\ D (H (P df)) = result
  /\ filtering df start end_ range selection = result.
Proof.
  unfold filtering, filterDate, filterHour, filterPaymentType; cbv zeta.
  set (d := fun r : Trip => _ && _).
  set (h := fun r : Trip => _ && _).
  set (p := fun r : Trip => isin _ _).
  repeat split.
  - now rewrite (filter_swap d h).
  - now rewrite (filter_swap h p).
  - now rewrite (filter_swap d p), (filter_swap h p), (filter_swap h d).
  - now rewrite (filter_swap d p), (filter_swap d h).
  - now rewrite (filter_swap h p), (filter_swap d p), (filter_swap d h).
Qed.

(** C7. The payment label of a record is the image of its payment type under
    the table 1 -> Credit Card, 2 -> Cash, 3 -> No Charge, 4 -> Dispute, and
    Unknown for every other code and for a missing code; code 7 and the
    missing code are given as instances.  The derivation is a total function:
    it has a value, and raises nothing, on every input. *)
Theorem payment_label_lookup (r : RawTrip) :
  payment_label (derive r) =
    match raw_payment_type r with
    | Some 1 => "Credit Card"
    | Some 2 => "Cash"
    | Some 3 => "No Charge"
    | Some 4 => "Dispute"
    | Some _ => "Unknown"
    | None => "Unknown"
    end
  /\ label_of_payment_type (Some 7) = "Unknown"
  /\ label_of_payment_type None = "Unknown".
Proof.
  repeat split.
  simpl. destruct (raw_payment_type r) as [c |]; [| reflexivity].
  unfold label_of_payment_type, series_map, payment_map, dict_get.
  destruct (1 =? c) eqn:E1; [apply Z.eqb_eq in E1; subst; reflexivity |].
  destruct (2 =? c) eqn:E2; [apply Z.eqb_eq in E2; subst; reflexivity |].
  destruct (3 =? c) eqn:E3; [apply Z.eqb_eq in E3; subst; reflexivity |].
  destruct (4 =? c) eqn:E4; [apply Z.eqb_eq in E4; subst; reflexivity |].
  apply Z.eqb_neq in E1, E2, E3, E4.
  destruct c as [| p | p]; try reflexivity.
  do 3 (try (destruct p as [p | p |]; try reflexivity; try congruence)).
Qed.

(** C8. When the start date lies strictly after the end date, the date
    filter returns the empty record set, whatever the records are; the filter
    is a total function, so no fault arises. *)
Theorem filterDate_inverted_range (R : DataFrame) (startDate endDate : Date) :
  startDate > endDate -> filterDate R startDate endDate = [].
Proof.
  intros Hgt; unfold filterDate; apply filter_none; intros r _.
  apply andb_false_iff.
  destruct (dt_date (tpep_pickup_datetime r) >=? startDate) eqn:E; [right | now left].
  apply Z.geb_le in E; apply Z.leb_gt; lia.
Qed.

Lemma filterDate_inverted_range_witness :
  1 > 0 /\ filterDate sample 1 0 = [].
Proof.
  split; [lia | apply (@filterDate_inverted_range sample 1 0); lia].
Defined.

(** C10. If the selection contains every distinct payment label that occurs
    in the record set, the payment filter returns the record set unchanged. *)
Theorem filterPaymentType_all_labels (df : DataFrame) (selection : list string) :
  incl (available_payments df) selection -> filterPaymentType df selection = df.
Proof.
  intros Hall; unfold filterPaymentType; apply filter_all; intros r Hr.
  apply isin_In, Hall; unfold available_payments.
  apply In_distinct, in_map, Hr.
Qed.

Lemma filterPaymentType_all_labels_witness :
  incl (available_payments sample) ["Cash"; "Credit Card"; "Dispute"]
  /\ filterPaymentType sample ["Cash"; "Credit Card"; "Dispute"] = sample.
Proof.
  assert (Hin : incl (available_payments sample) ["Cash"; "Credit Card"; "Dispute"]).
  { intros l Hl; vm_compute in Hl; simpl; intuition. }
  split; [exact Hin | apply (@filterPaymentType_all_labels sample _ Hin)].
Defined.

(** The dashboard's default selection, all the labels available in the
    frame, leaves the frame as it is. *)
Lemma filterPaymentType_default (df : DataFrame) :
  filterPaymentType df (available_payments df) = df.
Proof.
  unfold filterPaymentType; apply filter_all; intros r Hr.
  apply isin_In; unfold available_payments; apply In_distinct, in_map, Hr.
Qed.

(** ** ORDER BY *)

Section OrderByFacts.
Context {A : Type}.
Variable leb : A -> A -> bool.

Let before (x y : A) : Prop := leb x y = true.

Lemma insert_sorted_perm (x : A) (l : list A) :
  Permutation (insert_sorted leb x l) (x :: l).
Proof.
  induction l as [| y l IH]; simpl; [reflexivity |].
  destruct (leb x y); [reflexivity |].
  rewrite IH; apply perm_swap.
Qed.

Lemma order_by_perm (l : list A) : Permutation (order_by leb l) l.
Proof.
  induction l as [| x l IH]; simpl; [reflexivity |].
  rewrite insert_sorted_perm; now constructor.
Qed.

Lemma order_by_length (l : list A) :
  List.length (order_by leb l) = List.length l.
Proof. apply Permutation_length, order_by_perm. Qed.

Lemma order_by_In (x : A) (l : list A) : In x (order_by leb l) <-> In x l.
Proof.
  split; apply Permutation_in; [| symmetry]; apply order_by_perm.
Qed.

Hypothesis leb_total : forall x y, leb x y = true \/ leb y x = true.

Lemma insert_sorted_hd (x y : A) (l : list A) :
  before y x -> HdRel before y l -> HdRel before y (insert_sorted leb x l).
Proof.
  intros Hyx Hhd; destruct l as [| z l]; simpl.
  - now constructor.
  - destruct (leb x z); constructor; [assumption | now inversion Hhd].
Qed.

Lemma insert_sorted_Sorted (x : A) (l : list A) :
  Sorted before l -> Sorted before (insert_sorted leb x l).
Proof.
  induction 1 as [| y l Hs IH Hhd]; simpl.
  - repeat constructor.
  - destruct (leb x y) eqn:E.
    + constructor; [now constructor | now constructor].
    + constructor; [assumption |].
      apply insert_sorted_hd; [| assumption].
      destruct (leb_total x y) as [Hxy | Hyx]; [congruence | exact Hyx].
Qed.

Lemma order_by_Sorted (l : list A) : Sorted before (order_by leb l).
Proof.
  induction l as [| x l IH]; simpl; [constructor |].
  now apply insert_sorted_Sorted.
Qed.

Hypothesis leb_trans : forall x y z, leb x y = true -> leb y z = true -> leb x z = true.

Lemma order_by_StronglySorted (l : list A) :
  StronglySorted before (order_by leb l).
Proof.
  apply Sorted_StronglySorted; [| apply order_by_Sorted].
  intros x y z; apply leb_trans.
Qed.
End OrderByFacts.


(** The first rows of a sorted list stand before all the rows cut off. *)
Lemma StronglySorted_firstn_skipn {A : Type} (R : A -> A -> Prop) (n : nat) (l : list A) :
  StronglySorted R l ->
  forall x y, In x (firstn n l) -> In y (skipn n l) -> R x y.
Proof.
  intros Hs; revert n; induction Hs as [| a l Hs IH Hall]; intros n x y Hx Hy.
  - destruct n; contradiction.
  - destruct n as [| n]; simpl in Hx, Hy; [contradiction |].
    destruct Hx as [<- | Hx].
    + rewrite Forall_forall in Hall; apply Hall.
      rewrite <- (firstn_skipn n l); apply in_or_app; now right.
    + now apply (IH n).
Qed.

Lemma StronglySorted_firstn {A : Type} (R : A -> A -> Prop) (n : nat) (l : list A) :
  StronglySorted R l -> StronglySorted R (firstn n l).
Proof.
  intros Hs; revert n; induction Hs as [| a l Hs IH Hall]; intros [| n]; simpl;
    try constructor.
  - apply IH.
  - rewrite Forall_forall in *; intros x Hx; apply Hall.
    rewrite <- (firstn_skipn n l); apply in_or_app; now left.
Qed.


(** ** GROUP BY *)

Section GroupByFacts.
Context {Row K : Type} `{EqKey K}.
Variable key : Row -> K.
Implicit Types (k : K) (rows : list Row).

Lemma group_by_keys rows :
  map fst (group_by key rows) = distinct (map key rows).
Proof.
  unfold group_by; rewrite map_map; simpl; apply map_id.
Qed.

Lemma group_by_length rows :
  List.length (group_by key rows) = List.length (distinct (map key rows)).
Proof. unfold group_by; apply length_map. Qed.

Lemma group_by_In k (g : list Row) rows :
  In (k, g) (group_by key rows) <->
  In k (map key rows) /\ g = group_rows key k rows.
Proof.
  unfold group_by; rewrite in_map_iff; split.
  - intros (k' & E & Hk'); inversion E; subst; split; [| reflexivity].
    now apply In_distinct.
  - intros (Hk & ->); exists k; split; [reflexivity | now apply In_distinct].
Qed.

Lemma group_rows_In k rows (r : Row) :
  In r (group_rows key k rows) <-> In r rows /\ key r = k.
Proof. unfold group_rows; rewrite filter_In, keyb_eq; tauto. Qed.

(** A key that occurs has a group with at least one row. *)
Lemma group_rows_nonempty k rows :
  In k (map key rows) -> (1 <= COUNT (group_rows key k rows))%nat.
Proof.
  rewrite in_map_iff; intros (r & <- & Hr).
  assert (Hin : In r (group_rows key (key r) rows)) by now apply group_rows_In.
  unfold COUNT; destruct (group_rows key (key r) rows); [contradiction | simpl; lia].
Qed.

Lemma list_sum_head (x : nat) (t : list nat) :
  list_sum (x :: t) = (x + list_sum t)%nat.
Proof. reflexivity. Qed.

Lemma indicator_sum k (ks : list K) :
  NoDup ks -> In k ks ->
  list_sum (map (fun k' => if keyb k k' then 1 else 0)%nat ks) = 1%nat.
Proof.
  induction 1 as [| k0 ks Hnotin Hnd IH]; intros Hin; [contradiction |].
  simpl; destruct (keyb_spec k k0) as [-> | Hne].
  - assert (E : list_sum (map (fun k' => if keyb k0 k' then 1 else 0)%nat ks) = 0%nat).
    { clear IH Hin Hnd; induction ks as [| k1 ks IHks]; simpl; [reflexivity |].
      destruct (keyb_spec k0 k1) as [-> | _].
      - exfalso; apply Hnotin; now left.
      - apply IHks; intros Hk; apply Hnotin; now right. }
    rewrite E; reflexivity.
  - destruct Hin as [-> | Hin]; [congruence | now rewrite IH].
Qed.

(** The groups partition the rows: their sizes add up to the number of
    rows. *)
Lemma group_sizes_sum (ks : list K) rows :
  NoDup ks -> (forall r, In r rows -> In (key r) ks) ->
  list_sum (map (fun k => COUNT (group_rows key k rows)) ks) = List.length rows.
Proof.
  intros Hnd; induction rows as [| r rows IH]; intros Hcover.
  - simpl; induction ks as [| k ks IHks]; simpl; [reflexivity |].
    apply IHks; now inversion Hnd.
  - assert (Hsplit : forall l : list K,
      list_sum (map (fun k => COUNT (group_rows key k (r :: rows))) l)
      = (list_sum (map (fun k' => if keyb (key r) k' then 1 else 0) l)
         + list_sum (map (fun k => COUNT (group_rows key k rows)) l))%nat).
    { induction l as [| k l IHl]; cbn [map list_sum]; [reflexivity |].
      rewrite !list_sum_head, IHl; unfold COUNT, group_rows; cbn [filter].
      destruct (keyb (key r) k); simpl; lia. }
    rewrite Hsplit, indicator_sum, IH; simpl; auto.
    + intros r' Hr'; apply Hcover; now right.
    + apply Hcover; now left.
Qed.

Lemma group_by_counts_sum rows :
  list_sum (map (fun g => COUNT (snd g)) (group_by key rows)) = List.length rows.
Proof.
  unfold group_by; rewrite map_map; simpl.
  apply group_sizes_sum; [apply NoDup_distinct |].
  intros r Hr; apply In_distinct, in_map, Hr.
Qed.
End GroupByFacts.

Lemma list_sum_perm (l1 l2 : list nat) :
  Permutation l1 l2 -> list_sum l1 = list_sum l2.
Proof. induction 1; simpl; lia. Qed.

Lemma NoDup_firstn {A : Type} (n : nat) (l : list A) : NoDup l -> NoDup (firstn n l).
Proof.
  intros Hnd; revert n; induction Hnd as [| x l Hx Hnd IH]; intros [| n]; simpl;
    try constructor.
  - intros Hin; apply Hx.
    rewrite <- (firstn_skipn n l); apply in_or_app; now left.
  - apply IH.
Qed.

Lemma In_firstn {A : Type} (n : nat) (l : list A) (x : A) : In x (firstn n l) -> In x l.
Proof.
  intros Hx; rewrite <- (firstn_skipn n l); apply in_or_app; now left.
Qed.

Lemma StronglySorted_impl {A : Type} (R1 R2 : A -> A -> Prop) (l : list A) :
  (forall x y, R1 x y -> R2 x y) -> StronglySorted R1 l -> StronglySorted R2 l.
Proof.
  intros Himp; induction 1 as [| x l Hs IH Hall]; constructor; [assumption |].
  rewrite Forall_forall in *; auto.
Qed.

(** ** Top pickup zones (bar chart) *)

(** The rows of the query before ORDER BY and LIMIT: every distinct zone with
    the number of its trips. *)
Lemma zone_counts_eq (df : DataFrame) :
  map (fun g => (fst g, COUNT (snd g))) (group_by PU_Zone df)
  = map (fun z => (z, COUNT (group_rows PU_Zone z df))) (distinct (map PU_Zone df)).
Proof. unfold group_by; now rewrite map_map. Qed.

(** C1. The bar chart's rows are (zone, count) pairs in which the count is
    the number of records of that pickup zone; there are at most 10 rows and
    at most one per distinct zone (exactly the smaller of 10 and the number
    of distinct zones); the counts do not increase along the rows; a zone
    left out has no more records than any zone shown; when at most 10 zones
    are distinct every one of them has its row; and no records give no
    rows. *)
Theorem constructBar_top10 (df : DataFrame) :
  let rows := data_frame (constructBar df) in
  let trips_from :=
    fun z => List.length (filter (fun r => String.eqb (PU_Zone r) z) df) in
  (forall z c, In (z, c) rows -> In z (map PU_Zone df) /\ c = trips_from z)
  /\ (exists zones, NoDup zones
        /\ (forall z, In z zones <-> In z (map PU_Zone df))
        /\ List.length rows = Nat.min 10 (List.length zones))
  /\ (List.length rows <= 10)%nat
  /\ NoDup (map fst rows)
  /\ StronglySorted (fun a b => (snd b <= snd a)%nat) rows
  /\ (forall z row, In z (map PU_Zone df) -> ~ In z (map fst rows) -> In row rows ->
        (trips_from z <= snd row)%nat)
  /\ ((forall zones, NoDup zones -> incl zones (map PU_Zone df) ->
                     (List.length zones <= 10)%nat) ->
        forall z, In z (map PU_Zone df) -> In (z, trips_from z) rows)
  /\ data_frame (constructBar []) = [].
Proof.
  intros rows trips_from.
  set (zones := distinct (map PU_Zone df)).
  set (desc := fun a b : string * nat => (snd b <=? snd a)%nat).
  set (G := map (fun z => (z, trips_from z)) zones).
  set (S := order_by desc G).
  assert (Hrows : rows = firstn 10 S).
  { unfold rows, constructBar, constructBar_query, limit; cbn [data_frame].
    rewrite zone_counts_eq; reflexivity. }
  assert (HSG : Permutation S G) by apply order_by_perm.
  assert (HlenS : List.length S = List.length zones).
  { unfold S; rewrite order_by_length; unfold G; apply length_map. }
  assert (Htotal : forall x y, desc x y = true \/ desc y x = true).
  { intros x y; unfold desc; rewrite !Nat.leb_le; lia. }
  assert (Htrans : forall x y z, desc x y = true -> desc y z = true -> desc x z = true).
  { intros x y z; unfold desc; rewrite !Nat.leb_le; lia. }
  assert (HsortS : StronglySorted (fun a b => (snd b <= snd a)%nat) S).
  { apply StronglySorted_impl with (R1 := fun a b => desc a b = true).
    - intros x y; unfold desc; now rewrite Nat.leb_le.
    - now apply order_by_StronglySorted. }
  assert (HinG : forall z c, In (z, c) G <-> In z zones /\ c = trips_from z).
  { intros z c; unfold G; rewrite in_map_iff; split.
    - intros (k & E & Hk); inversion E; subst; auto.
    - intros (Hz & ->); now exists z. }
  assert (HndS : NoDup (map fst S)).
  { apply Permutation_NoDup with (l := map fst G).
    - symmetry; now apply Permutation_map.
    - unfold G; rewrite map_map; cbn [fst]; rewrite map_id; apply NoDup_distinct. }
  assert (Hzones : forall z, In z zones <-> In z (map PU_Zone df)).
  { intros z; apply In_distinct. }
  rewrite Hrows.
  split.
  { intros z c Hrow.
    apply In_firstn in Hrow; apply (Permutation_in _ HSG), HinG in Hrow.
    destruct Hrow as (Hz & Hc); split; [now apply Hzones | exact Hc]. }
  split.
  { exists zones; split; [apply NoDup_distinct |].
    split; [exact Hzones | now rewrite length_firstn, HlenS]. }
  split; [rewrite length_firstn; lia |].
  split; [rewrite <- firstn_map; now apply NoDup_firstn |].
  split; [now apply StronglySorted_firstn |].
  split.
  { intros z row Hz Hnot Hrow.
    assert (HzS : In (z, trips_from z) S).
    { apply (Permutation_in _ (Permutation_sym HSG)), HinG; split;
        [now apply Hzones | reflexivity]. }
    rewrite <- (firstn_skipn 10 S) in HzS; apply in_app_or in HzS.
    destruct HzS as [HzS | HzS].
    + exfalso; apply Hnot; apply (in_map fst) in HzS; exact HzS.
    + apply (@StronglySorted_firstn_skipn _ _ 10 S HsortS row (z, trips_from z) Hrow HzS). }
  split; [| reflexivity].
  intros Hfew z Hz.
  assert (Hlen : (List.length zones <= 10)%nat).
  { apply Hfew; [apply NoDup_distinct |].
    intros x Hx; now apply Hzones. }
  rewrite firstn_all2 by lia.
  apply (Permutation_in _ (Permutation_sym HSG)), HinG; split; [| reflexivity].
  now apply Hzones.
Qed.

(** ** Average fare by hour (line chart) *)

(** The engine's reading of a timestamp. *)

Lemma CastTimestampNsToUs_nearest (t : Timestamp) :
  1000 * CastTimestampNsToUs t = nearest_microsecond t.
Proof.
  unfold CastTimestampNsToUs, GetEpochRounded, nearest_microsecond.
  change (Z.quot 1000 2) with 500.
  destruct (Z.leb_spec 0 t) as [Hpos | Hneg];
    destruct (Z.ltb_spec (Z.quot t 500) 0) as [Hq | Hq];
    Z.to_euclidean_division_equations; lia.
Qed.

Lemma IsFinite_extreme (t : Timestamp) : IsFinite t = negb (extreme t).
Proof. reflexivity. Qed.

Lemma HOUR_reads (t : Timestamp) :
  HOUR t = option_map hour_of_day (as_engine_reads t).
Proof.
  unfold HOUR, as_engine_reads; rewrite IsFinite_extreme.
  destruct (extreme t); cbn [negb option_map]; [reflexivity |].
  unfold hour_of_day; rewrite <- CastTimestampNsToUs_nearest.
  change 3600000000000 with (1000 * us_per_hour).
  rewrite Z.div_mul_cancel_l; [reflexivity | discriminate | discriminate].
Qed.

Lemma day_name_cycle (d : Z) :
  nth (Z.to_nat ((d + 3) mod 7)) day_names ""
  = match d mod 7 with
    | 0 => "Thursday"
    | 1 => "Friday"
    | 2 => "Saturday"
    | 3 => "Sunday"
    | 4 => "Monday"
    | 5 => "Tuesday"
    | _ => "Wednesday"
    end.
Proof.
  rewrite <- Z.add_mod_idemp_l by discriminate.
  assert (Hm : 0 <= d mod 7 < 7) by (apply Z.mod_pos_bound; reflexivity).
  assert (Hc : d mod 7 = 0 \/ d mod 7 = 1 \/ d mod 7 = 2 \/ d mod 7 = 3
               \/ d mod 7 = 4 \/ d mod 7 = 5 \/ d mod 7 = 6) by lia.
  destruct Hc as [E | [E | [E | [E | [E | [E | E]]]]]]; rewrite E; reflexivity.
Qed.

Lemma DAYNAME_reads (t : Timestamp) :
  DAYNAME t = option_map day_of_week (as_engine_reads t).
Proof.
  unfold DAYNAME, as_engine_reads; rewrite IsFinite_extreme.
  destruct (extreme t); cbn [negb option_map]; [reflexivity |].
  unfold weekday, day_of_week; rewrite day_name_cycle.
  rewrite <- CastTimestampNsToUs_nearest.
  change 86400000000000 with (1000 * us_per_day).
  rewrite Z.div_mul_cancel_l; [reflexivity | discriminate | discriminate].
Qed.

Lemma whole_microseconds_reads (t : Timestamp) :
  whole_microseconds t -> as_engine_reads t = Some t.
Proof.
  unfold whole_microseconds, as_engine_reads, extreme, nearest_microsecond; intros Hw.
  destruct (Z.eqb_spec t 9223372036854775807) as [-> | _]; [discriminate Hw |].
  destruct (Z.eqb_spec t (-9223372036854775807)) as [-> | _]; [discriminate Hw |].
  cbn [orb]; f_equal.
  destruct (Z.leb_spec 0 t); Z.to_euclidean_division_equations; lia.
Qed.

Lemma hour_of_day_range (t : Timestamp) : 0 <= hour_of_day t < 24.
Proof. unfold hour_of_day; apply Z.mod_pos_bound; reflexivity. Qed.


Lemma dt_hour_range (t : Timestamp) : 0 <= dt_hour t < 24.
Proof. unfold dt_hour; apply Z.mod_pos_bound; reflexivity. Qed.

Lemma In_hours_of_day (h : Z) : In h hours_of_day <-> 0 <= h < 24.
Proof.
  unfold hours_of_day; rewrite in_map_iff; split.
  - intros (n & <- & Hn); apply in_seq in Hn; lia.
  - intros Hh; exists (Z.to_nat h); split; [lia | apply in_seq; lia].
Qed.




















(** The bucket is the hour of the dropoff, not the [pickup_hour] column the
    hour filter reads: a trip picked up at 04:00 and dropped off at 05:00
    counts for hour 5. *)
Example constructLine_uses_dropoff_hour :
  pickup_hour (trip (at_hour 4) (at_hour 5) "A" 10 5 (Some 2)) = 4
  /\ data_frame (constructLine [trip (at_hour 4) (at_hour 5) "A" 10 5 (Some 2)])
     = [(Some 5, Some 10%float)].
Proof. split; vm_compute; reflexivity. Qed.

(** The engine's float64 mean: three fares of 0.1 average to
    0.10000000000000002, two of 1e308 to infinity, and a NaN fare is
    skipped. *)
Example AVG_float64 :
  AVG [0x1.999999999999ap-4; 0x1.999999999999ap-4; 0x1.999999999999ap-4]%float
  = Some 0x1.999999999999bp-4%float
  /\ AVG [0x1.1ccf385ebc8ap+1023; 0x1.1ccf385ebc8ap+1023]%float = Some infinity
  /\ AVG [nan; 2%float] = Some 2%float
  /\ AVG [nan] = None.
Proof. repeat split; vm_compute; reflexivity. Qed.

(** ** Trips by day of week and hour (heatmap) *)

Lemma constructHeat_key_cell (r : Trip) :
  (DAYNAME (tpep_pickup_datetime r), HOUR (tpep_pickup_datetime r)) = pickup_cell r.
Proof. unfold pickup_cell; now rewrite DAYNAME_reads, HOUR_reads. Qed.


Lemma whole_microseconds_cell (r : Trip) :
  whole_microseconds (tpep_pickup_datetime r) ->
  pickup_cell r = (Some (day_of_week (tpep_pickup_datetime r)),
                   Some (hour_of_day (tpep_pickup_datetime r))).
Proof.
  intros Hw; unfold pickup_cell; now rewrite (whole_microseconds_reads Hw).
Qed.



(** The two extreme timestamps share a row without day and hour. *)
Example constructHeat_extreme_timestamps :
  data_frame (constructHeat [trip 9223372036854775807 (at_hour 0) "A" 10 1 (Some 1);
                             trip (-9223372036854775807) (at_hour 0) "A" 10 1 (Some 1)])
  = [(None, None, 2%nat)].
Proof. vm_compute; reflexivity. Qed.

(** ** Distribution of distances (histogram) *)

Section QuantileFacts.
Local Open Scope Q_scope.

Lemma Qle_bool_total (x y : Q) : Qle_bool x y = true \/ Qle_bool y x = true.
Proof.
  rewrite !Qle_bool_iff.
  destruct (Qlt_le_dec x y) as [Hlt | Hle]; [left; now apply Qlt_le_weak | now right].
Qed.

Lemma Qle_bool_trans (x y z : Q) :
  Qle_bool x y = true -> Qle_bool y z = true -> Qle_bool x z = true.
Proof. rewrite !Qle_bool_iff; apply Qle_trans. Qed.

Lemma order_by_Qle_sorted (l : list Q) : StronglySorted Qle (order_by Qle_bool l).
Proof.
  apply StronglySorted_impl with (R1 := fun a b => Qle_bool a b = true).
  - intros x y; apply Qle_bool_iff.
  - apply order_by_StronglySorted; [apply Qle_bool_total | apply Qle_bool_trans].
Qed.

Lemma StronglySorted_nth_error_le (s : list Q) :
  StronglySorted Qle s ->
  forall (i j : nat) (a b : Q),
    (i <= j)%nat -> nth_error s i = Some a -> nth_error s j = Some b -> a <= b.
Proof.
  induction 1 as [| x s Hs IH Hall]; intros i j a b Hij Ha Hb.
  - destruct i; discriminate.
  - destruct i as [| i], j as [| j]; simpl in Ha, Hb.
    + injection Ha as <-; injection Hb as <-; apply Qle_refl.
    + injection Ha as <-; rewrite Forall_forall in Hall.
      apply Hall; eapply nth_error_In; eassumption.
    + lia.
    + apply (IH i j); [lia | assumption | assumption].
Qed.

Lemma virtual_index_bounds (n : Z) (q : Q) :
  (1 <= n)%Z -> 0 <= q <= 1 ->
  (0 <= Qfloor (inject_Z (n - 1) * q) <= n - 1)%Z.
Proof.
  intros Hn [Hq0 Hq1].
  assert (Hm : 0 <= inject_Z (n - 1)).
  { change 0 with (inject_Z 0); rewrite <- Zle_Qle; lia. }
  split.
  - change 0%Z with (Qfloor 0); apply Qfloor_resp_le.
    apply Qmult_le_0_compat; assumption.
  - rewrite <- (Qfloor_Z (n - 1)) at 2; apply Qfloor_resp_le; nra.
Qed.

Lemma fraction_bounds (x : Q) : 0 <= x - inject_Z (Qfloor x) < 1.
Proof.
  pose proof (Qfloor_le x) as Hlo; pose proof (Qlt_floor x) as Hhi.
  rewrite inject_Z_plus in Hhi; change (inject_Z 1) with 1 in Hhi.
  split; lra.
Qed.

(** The value [Series.quantile] returns on a non-empty series: with the
    values in ascending order and the position [(n-1)*q] split into its
    floor and its fraction [gamma], the value at the floor plus [gamma]
    times the step to the next value. *)
Lemma quantile_interpolation (l : list Q) (q : Q) :
  l <> [] -> 0 <= q <= 1 ->
  exists a b gamma : Q,
    nth_error (order_by Qle_bool l)
      (Z.to_nat (Qfloor (inject_Z (Z.of_nat (List.length l) - 1) * q))) = Some a
    /\ nth_error (order_by Qle_bool l)
         (Z.to_nat (Z.min (Qfloor (inject_Z (Z.of_nat (List.length l) - 1) * q) + 1)
                          (Z.of_nat (List.length l) - 1))) = Some b
    /\ gamma = inject_Z (Z.of_nat (List.length l) - 1) * q
               - inject_Z (Qfloor (inject_Z (Z.of_nat (List.length l) - 1) * q))
    /\ 0 <= gamma < 1
    /\ a <= b
    /\ quantile l q = Some (a + (b - a) * gamma).
Proof.
  intros Hne Hq.
  assert (Hlen : List.length (order_by Qle_bool l) = List.length l)
    by apply order_by_length.
  assert (Hn : (1 <= Z.of_nat (List.length l))%Z).
  { destruct l; [congruence | simpl; lia]. }
  pose proof (virtual_index_bounds Hn Hq) as Hprev.
  unfold quantile; rewrite Hlen.
  set (n := Z.of_nat (List.length l)) in *.
  set (prev := Qfloor (inject_Z (n - 1) * q)) in *.
  assert (E0 : (n =? 0)%Z = false) by (apply Z.eqb_neq; lia).
  rewrite E0.
  destruct (nth_error (order_by Qle_bool l) (Z.to_nat prev)) as [a |] eqn:Ea.
  2: { apply nth_error_None in Ea; lia. }
  destruct (nth_error (order_by Qle_bool l) (Z.to_nat (Z.min (prev + 1) (n - 1))))
    as [b |] eqn:Eb.
  2: { apply nth_error_None in Eb; lia. }
  exists a, b, (inject_Z (n - 1) * q - inject_Z prev).
  repeat split; try reflexivity.
  - apply fraction_bounds.
  - apply fraction_bounds.
  - eapply StronglySorted_nth_error_le;
      [apply order_by_Qle_sorted | | exact Ea | exact Eb]; lia.
Qed.
End QuantileFacts.

Section QuantileSpec.
Local Open Scope Q_scope.

Lemma quantile_nil (q : Q) : quantile [] q = None.
Proof. reflexivity. Qed.

Lemma order_by_nil_inv {A : Type} (leb : A -> A -> bool) (l : list A) :
  order_by leb l = [] -> l = [].
Proof.
  intros E; apply (f_equal (@List.length A)) in E.
  rewrite order_by_length in E; destruct l; [reflexivity | discriminate].
Qed.

Lemma quantile_None_iff (l : list Q) (q : Q) :
  0 <= q <= 1 -> (quantile l q = None <-> l = []).
Proof.
  intros Hq; split; [| intros ->; reflexivity].
  intros E; destruct l as [| x l]; [reflexivity |].
  destruct (@quantile_interpolation (x :: l) q) as (a & b & g & _ & _ & _ & _ & _ & E');
    [discriminate | assumption | congruence].
Qed.

(** The quantile of a non-empty series lies between two of its values, and
    not below its least value. *)
Lemma quantile_bounds (l : list Q) (q : Q) :
  l <> [] -> 0 <= q <= 1 ->
  exists t m b : Q,
    quantile l q = Some t
    /\ In m l /\ (forall x, In x l -> m <= x) /\ m <= t
    /\ In b l /\ t <= b.
Proof.
  intros Hne Hq.
  destruct (quantile_interpolation Hne Hq) as (a & b & g & Ea & Eb & _ & Hg & Hab & E).
  pose proof (order_by_Qle_sorted l) as Hs.
  pose proof (order_by_length Qle_bool l) as Hlen.
  destruct (order_by Qle_bool l) as [| m s] eqn:Es.
  { destruct l; [congruence | discriminate]. }
  assert (Hperm : forall x, In x (m :: s) <-> In x l).
  { intros x; rewrite <- Es; apply order_by_In. }
  exists (a + (b - a) * g), m, b.
  assert (Hma : m <= a).
  { apply (StronglySorted_nth_error_le Hs) with (i := 0%nat) (j := Z.to_nat
      (Qfloor (inject_Z (Z.of_nat (List.length l) - 1) * q)));
      [lia | reflexivity | assumption]. }
  split; [assumption |].
  split; [apply Hperm; now left |].
  split.
  { intros x Hx; apply Hperm in Hx; destruct Hx as [<- | Hx]; [apply Qle_refl |].
    inversion Hs as [| ? ? _ Hall]; subst; rewrite Forall_forall in Hall; now apply Hall. }
  split; [nra |].
  split; [apply Hperm; eapply nth_error_In; eassumption | nra].
Qed.
End QuantileSpec.

Section HistogramFacts.
Local Open Scope Q_scope.

Lemma le_nan_iff (x : Q) (y : option Q) :
  le_nan x y = true <-> exists t, y = Some t /\ x <= t.
Proof.
  destruct y as [t |]; simpl.
  - rewrite Qle_bool_iff; split; [eauto | intros (t' & [= <-] & H); exact H].
  - split; [discriminate | intros (t & E & _); discriminate].
Qed.

Lemma constructHist_In (df : DataFrame) (r : Trip) :
  In r (data_frame (constructHist df)) <->
  In r df /\ exists t, quantile (map trip_distance df) (99 # 100) = Some t
                       /\ trip_distance r <= t.
Proof.
  unfold constructHist; cbn [data_frame]; now rewrite filter_In, le_nan_iff.
Qed.

(** No records: the percentile is NaN, every comparison with it is false,
    and the figure draws nothing. *)
Lemma constructHist_empty :
  quantile (map trip_distance []) (99 # 100) = None
  /\ data_frame (constructHist []) = [].
Proof. split; reflexivity. Qed.

Lemma degenerateb_spec (l : list Q) : degenerateb l = true <-> degenerate l.
Proof.
  destruct l as [| x t]; [split; [intros _ a b [] | reflexivity] |].
  unfold degenerateb, degenerate; rewrite forallb_forall; split.
  - intros Hall a b Ha Hb.
    assert (Hx : forall y, In y (x :: t) -> x == y).
    { intros y [<- | Hy]; [reflexivity | now apply Qeq_bool_iff, Hall]. }
    rewrite <- (Hx a Ha), <- (Hx b Hb); reflexivity.
  - intros Hdeg y Hy; apply Qeq_bool_iff, Hdeg; [now left | now right].
Qed.

(** Records whose clipped distances are all equal: the clipped subset is the
    records of least distance. *)
Lemma constructHist_degenerate_clip (df : DataFrame) :
  df <> [] ->
  degenerate (hist_values (constructHist df)) ->
  exists t m,
    quantile (map trip_distance df) (99 # 100) = Some t
    /\ In m (map trip_distance df)
    /\ (forall r, In r df -> m <= trip_distance r)
    /\ m <= t
    /\ data_frame (constructHist df) = filter (fun r => Qeq_bool (trip_distance r) m) df
    /\ data_frame (constructHist df) <> [].
Proof.
  intros Hne Hdeg.
  destruct (@quantile_bounds (map trip_distance df) (99 # 100))
    as (t & m & b & E & Hm & Hmin & Hmt & _).
  { intros Enil; apply map_eq_nil in Enil; contradiction. }
  { split; lra. }
  exists t, m.
  pose proof Hm as Hm'.
  apply in_map_iff in Hm'; destruct Hm' as (rm & Erm & Hrm).
  assert (Hkept : In rm (data_frame (constructHist df))).
  { apply constructHist_In; split; [exact Hrm | exists t; split; [exact E |]].
    rewrite Erm; exact Hmt. }
  split; [exact E |].
  split; [exact Hm |].
  split; [intros r Hr; apply Hmin, in_map, Hr |].
  split; [exact Hmt |].
  split; [| intros Enil; rewrite Enil in Hkept; exact Hkept].
  unfold constructHist; cbn [data_frame]; rewrite E; cbn [le_nan].
  apply filter_ext_in; intros r Hr.
  destruct (Qle_bool (trip_distance r) t) eqn:Ele.
  - symmetry; apply Qeq_bool_iff.
    assert (Hr' : In r (data_frame (constructHist df))).
    { apply constructHist_In; split; [exact Hr | exists t; split; [exact E |]].
      now apply Qle_bool_iff. }
    rewrite <- Erm; apply Hdeg; unfold hist_values; now apply in_map.
  - symmetry; apply not_true_is_false; intros Eq.
    apply Qeq_bool_iff in Eq.
    assert (Hle : Qle_bool (trip_distance r) t = true).
    { apply Qle_bool_iff; rewrite Eq; exact Hmt. }
    congruence.
Qed.
End HistogramFacts.

(** C9, as amended.  [constructHist] has no guard for the degenerate domain
    and computes no bin width.  When the clipped distances are none or all
    equal it asks the plotting library for what it asks on every frame, a
    histogram of the clipped records with [nbins = 285]; it divides nothing
    and returns without a fault: with no records the threshold is NaN and
    nothing is drawn, and otherwise the clipped subset is exactly the records
    of least distance, at least one. *)
Theorem constructHist_degenerate_unguarded (df : DataFrame) :
  degenerate (hist_values (constructHist df)) ->
  request (constructHist df) = (Histogram, Some 285)
  /\ (forall df', request (constructHist df') = request (constructHist df))
  /\ (df = [] ->
      quantile (map trip_distance df) (99 # 100) = None
      /\ data_frame (constructHist df) = [])
  /\ (df <> [] ->
      exists t m,
        quantile (map trip_distance df) (99 # 100) = Some t
        /\ In m (map trip_distance df)
        /\ (forall r, In r df -> (m <= trip_distance r)%Q)
        /\ (m <= t)%Q
        /\ data_frame (constructHist df)
           = filter (fun r => Qeq_bool (trip_distance r) m) df
        /\ data_frame (constructHist df) <> []).
Proof.
  intros Hdeg.
  split; [reflexivity |].
  split; [intros df'; reflexivity |].
  split; [intros ->; apply constructHist_empty |].
  intros Hne; now apply constructHist_degenerate_clip.
Qed.

Lemma constructHist_degenerate_unguarded_witness :
  degenerate (hist_values (constructHist sample))
  /\ request (constructHist sample) = (Histogram, Some 285)
  /\ (forall df', request (constructHist df') = request (constructHist sample))
  /\ (sample = [] ->
      quantile (map trip_distance sample) (99 # 100) = None
      /\ data_frame (constructHist sample) = [])
  /\ (sample <> [] ->
      exists t m,
        quantile (map trip_distance sample) (99 # 100) = Some t
        /\ In m (map trip_distance sample)
        /\ (forall r, In r sample -> (m <= trip_distance r)%Q)
        /\ (m <= t)%Q
        /\ data_frame (constructHist sample)
           = filter (fun r => Qeq_bool (trip_distance r) m) sample
        /\ data_frame (constructHist sample) <> []).
Proof.
  assert (Hdeg : degenerate (hist_values (constructHist sample))).
  { apply degenerateb_spec; vm_compute; reflexivity. }
  split; [exact Hdeg | exact (@constructHist_degenerate_unguarded sample Hdeg)].
Defined.

(** The claim of an explicit guard fails.  Three records of distance 5 give
    a degenerate domain, records of distances 1, 2 and 3 do not (1 and 2 are
    retained), and [constructHist] asks the same of the plotting library for
    both. *)
Lemma constructHist_guard_counterexample :
  degenerate (hist_values (constructHist sample))
  /\ ~ degenerate (hist_values (constructHist
                                  [trip 0 0 "A" 1 1 None; trip 0 0 "A" 1 2 None;
                                   trip 0 0 "A" 1 3 None]))
  /\ request (constructHist sample)
     = request (constructHist [trip 0 0 "A" 1 1 None; trip 0 0 "A" 1 2 None;
                               trip 0 0 "A" 1 3 None])
  /\ ~ explicitly_guarded constructHist.
Proof.
  assert (H1 : degenerate (hist_values (constructHist sample))).
  { apply degenerateb_spec; vm_compute; reflexivity. }
  assert (H2 : ~ degenerate (hist_values (constructHist
                                  [trip 0 0 "A" 1 1 None; trip 0 0 "A" 1 2 None;
                                   trip 0 0 "A" 1 3 None]))).
  { intros Hd; apply degenerateb_spec in Hd; vm_compute in Hd; discriminate Hd. }
  split; [exact H1 |].
  split; [exact H2 |].
  split; [reflexivity |].
  intros Hguard; apply (Hguard _ _ H1 H2); reflexivity.
Qed.

(** The guard the specification gives as its example is explicit in this
    sense: it asks for one bin on a degenerate domain and for 285 on any
    other. *)
Example single_bin_is_explicitly_guarded :
  explicitly_guarded constructHist_single_bin_spec.
Proof.
  assert (Hval : forall df, hist_values (constructHist_single_bin_spec df)
                            = hist_values (constructHist df)).
  { intros df; unfold constructHist_single_bin_spec; cbv zeta.
    destruct (degenerateb (hist_values (constructHist df))); reflexivity. }
  intros df df' Hd Hnd; rewrite Hval in Hd, Hnd.
  apply degenerateb_spec in Hd.
  assert (Hnd' : degenerateb (hist_values (constructHist df')) = false).
  { apply not_true_is_false; intros E; apply Hnd, degenerateb_spec, E. }
  unfold constructHist_single_bin_spec; cbv zeta; rewrite Hd, Hnd'.
  unfold request; cbn [chart nbins constructHist]; discriminate.
Qed.

(** ** The concrete scenarios of the specification *)

(** Zones A, A, B give the rows (A, 2), (B, 1). *)
Example scenario_top_zones :
  data_frame (constructBar [trip 0 0 "A" 1 1 None; trip 0 0 "A" 1 1 None;
                            trip 0 0 "B" 1 1 None])
  = [("A", 2%nat); ("B", 1%nat)].
Proof. vm_compute; reflexivity. Qed.

(** Dropoff hours 5, 5, 7 with fares 10, 20, 30 give the means 15 and 30. *)
Example scenario_hourly_average :
  data_frame (constructLine [trip 0 (at_hour 5) "A" 10 1 None;
                             trip 0 (at_hour 5) "A" 20 1 None;
                             trip 0 (at_hour 7) "B" 30 1 None])
  = [(Some 5, Some 15%float); (Some 7, Some 30%float)].
Proof. vm_compute; reflexivity. Qed.

(** Selecting Cash among the labels Cash, Credit Card, Cash keeps the two
    Cash records. *)
Example scenario_cash_only :
  map PU_Zone
    (filterPaymentType [trip 0 0 "A" 1 1 (Some 2); trip 0 0 "B" 1 1 (Some 1);
                        trip 0 0 "C" 1 1 (Some 2)] ["Cash"])
  = ["A"; "C"].
Proof. vm_compute; reflexivity. Qed.

(** An empty selection selects nothing. *)
Example scenario_empty_selection (df : DataFrame) : filterPaymentType df [] = [].
Proof. unfold filterPaymentType; apply filter_none; reflexivity. Qed.

(* ================================================================== *)
(** * Part III: further properties of the program *)
(* ================================================================== *)

(** ** Grouped counts *)

Section GroupedCounts.
Context {Row K : Type} `{EqKey K}.
Variable key : Row -> K.
Variable leb : K * nat -> K * nat -> bool.

(** The rows of [SELECT key, COUNT( * ) ... GROUP BY key ORDER BY ...],
    whatever the order: one row per key that occurs, with the number of its
    records, and the counts add up to the number of records. *)
Lemma grouped_counts (rows : list Row) :
  (forall k c,
     In (k, c) (order_by leb (map (fun g => (fst g, COUNT (snd g))) (group_by key rows)))
     <-> In k (map key rows) /\ c = COUNT (group_rows key k rows))
  /\ NoDup (map fst (order_by leb (map (fun g => (fst g, COUNT (snd g))) (group_by key rows))))
  /\ list_sum (map snd (order_by leb (map (fun g => (fst g, COUNT (snd g))) (group_by key rows))))
     = List.length rows.
Proof.
  assert (HG : map (fun g : K * list Row => (fst g, COUNT (snd g))) (group_by key rows)
               = map (fun k => (k, COUNT (group_rows key k rows))) (distinct (map key rows))).
  { unfold group_by; now rewrite map_map. }
  rewrite HG; clear HG.
  set (G := map (fun k => (k, COUNT (group_rows key k rows))) (distinct (map key rows))).
  pose proof (order_by_perm leb G) as Hperm.
  split; [| split].
  - intros k c; rewrite order_by_In; unfold G; rewrite in_map_iff; split.
    + intros (k' & E & Hk'); injection E as -> <-; split; [| reflexivity].
      now apply In_distinct.
    + intros (Hk & ->); exists k; split; [reflexivity | now apply In_distinct].
  - apply Permutation_NoDup with (l := map fst G).
    + symmetry; now apply Permutation_map.
    + unfold G; rewrite map_map; cbn [fst]; rewrite map_id; apply NoDup_distinct.
  - rewrite (list_sum_perm (Permutation_map snd Hperm)).
    unfold G; rewrite map_map; cbn [snd].
    apply group_sizes_sum; [apply NoDup_distinct |].
    intros r Hr; apply In_distinct, in_map, Hr.
Qed.
End GroupedCounts.

Lemma descending_counts_sorted {K : Type} (l : list (K * nat)) :
  StronglySorted (fun a b => (snd b <= snd a)%nat)
    (order_by (fun a b => (snd b <=? snd a)%nat) l).
Proof.
  apply StronglySorted_impl
    with (R1 := fun a b : K * nat => (snd b <=? snd a)%nat = true).
  - intros x y; apply Nat.leb_le.
  - apply order_by_StronglySorted.
    + intros x y; rewrite !Nat.leb_le; lia.
    + intros x y z; rewrite !Nat.leb_le; lia.
Qed.

(** ** Breakdown of payment types (pie chart) *)

(** X1. The pie chart has one row for each payment label that occurs among
    the records and for no other; the row's count is the number of records
    with that label, so it is at least 1; the counts add up to the number of
    records; and the rows stand in order of non-increasing count. *)
Theorem constructPie_breakdown (df : DataFrame) :
  (forall l c, In (l, c) (data_frame (constructPie df)) <->
     In l (map payment_label df)
     /\ c = List.length (filter (fun r => String.eqb (payment_label r) l) df))
  /\ (forall l c, In (l, c) (data_frame (constructPie df)) -> (1 <= c)%nat)
  /\ NoDup (map fst (data_frame (constructPie df)))
  /\ list_sum (map snd (data_frame (constructPie df))) = List.length df
  /\ StronglySorted (fun a b => (snd b <= snd a)%nat) (data_frame (constructPie df)).
Proof.
  unfold constructPie; cbn [data_frame]; unfold constructPie_result.
  destruct (grouped_counts payment_label (fun a b => (snd b <=? snd a)%nat) df)
    as (Hin & Hnd & Hsum).
  split; [exact Hin |].
  split.
  { intros l c Hrow; apply Hin in Hrow; destruct Hrow as (Hl & ->).
    now apply group_rows_nonempty. }
  split; [exact Hnd |].
  split; [exact Hsum | apply descending_counts_sorted].
Qed.

Lemma label_of_payment_type_cases (pt : option Z) :
  In (label_of_payment_type pt)
     ["Credit Card"; "Cash"; "No Charge"; "Dispute"; "Unknown"].
Proof.
  destruct pt as [c |]; [| simpl; tauto].
  unfold label_of_payment_type, series_map, payment_map, dict_get.
  destruct (1 =? c); [simpl; tauto |].
  destruct (2 =? c); [simpl; tauto |].
  destruct (3 =? c); [simpl; tauto |].
  destruct (4 =? c); simpl; tauto.
Qed.

(** X2. On a frame whose [payment_label] column was derived by the script,
    every label is one of Credit Card, Cash, No Charge, Dispute and Unknown,
    so the pie chart has at most five rows, however many payment codes
    occur. *)
Theorem constructPie_at_most_five (raw : list RawTrip) :
  (forall l, In l (map fst (data_frame (constructPie (load raw)))) ->
     In l ["Credit Card"; "Cash"; "No Charge"; "Dispute"; "Unknown"])
  /\ (List.length (data_frame (constructPie (load raw))) <= 5)%nat.
Proof.
  unfold constructPie; cbn [data_frame]; unfold constructPie_result.
  destruct (grouped_counts payment_label (fun a b => (snd b <=? snd a)%nat) (load raw))
    as (Hin & Hnd & _).
  match goal with |- ?P /\ _ => assert (Hincl : P) end.
  { intros l Hl; apply in_map_iff in Hl; destruct Hl as ([l' c] & <- & Hrow).
    apply Hin in Hrow; destruct Hrow as (Hl & _).
    unfold load in Hl; rewrite map_map in Hl.
    apply in_map_iff in Hl; destruct Hl as (x & <- & _).
    apply label_of_payment_type_cases. }
  split; [exact Hincl |].
  rewrite <- (length_map fst).
  apply (NoDup_incl_length Hnd Hincl).
Qed.

(** ** The filter stage as a whole *)

Lemma filter_filter {A : Type} (f g : A -> bool) (l : list A) :
  filter f (filter g l) = filter (fun x => g x && f x) l.
Proof.
  induction l as [| x l IH]; simpl; [reflexivity |].
  destruct (g x); simpl; [destruct (f x) |]; now rewrite IH.
Qed.

Lemma filter_Subseq_impl {A : Type} (f g : A -> bool) (l : list A) :
  (forall x, In x l -> f x = true -> g x = true) -> Subseq (filter f l) (filter g l).
Proof.
  induction l as [| x l IH]; intros Himp; simpl; [constructor |].
  assert (IH' : Subseq (filter f l) (filter g l)).
  { apply IH; intros y Hy; apply Himp; now right. }
  destruct (f x) eqn:Ef.
  - rewrite (Himp x (or_introl eq_refl) Ef); now constructor.
  - destruct (g x); [now constructor | assumption].
Qed.

(** X3. The three filter calls of the script keep exactly the records that
    meet all three constraints at once: pickup date within the closed date
    range, [pickup_hour] within the closed hour range, and [payment_label]
    among the selected labels.  They are one pass with the conjunction of
    the three tests, so the result keeps the order of the records. *)
Theorem filtering_conjunction
    (df : DataFrame) (dstart dend : Date) (hrange : Z * Z) (selected : list string) :
  filtering df dstart dend hrange selected
  = filter (fun r => ((dt_date (tpep_pickup_datetime r) >=? dstart)
                      && (dt_date (tpep_pickup_datetime r) <=? dend))
                     && ((pickup_hour r >=? fst hrange) && (pickup_hour r <=? snd hrange))
                     && isin selected (payment_label r)) df
  /\ (forall r, In r (filtering df dstart dend hrange selected) <->
        In r df
        /\ dstart <= dt_date (tpep_pickup_datetime r) <= dend
        /\ fst hrange <= pickup_hour r <= snd hrange
        /\ In (payment_label r) selected)
  /\ Subseq (filtering df dstart dend hrange selected) df.
Proof.
  assert (E : filtering df dstart dend hrange selected
              = filter (fun r => ((dt_date (tpep_pickup_datetime r) >=? dstart)
                      && (dt_date (tpep_pickup_datetime r) <=? dend))
                     && ((pickup_hour r >=? fst hrange) && (pickup_hour r <=? snd hrange))
                     && isin selected (payment_label r)) df).
  { unfold filtering, filterPaymentType, filterHour, filterDate.
    rewrite !filter_filter; apply filter_ext; intros r.
    now rewrite andb_assoc. }
  split; [exact E |].
  split; [| rewrite E; apply filter_Subseq].
  intros r; unfold filtering.
  rewrite filterPaymentType_In, filterHour_In, filterDate_In; tauto.
Qed.

(** X4. Two date ranges applied one after the other keep the records of
    their intersection, and so do two hour ranges. *)
Theorem filter_ranges_intersect
    (df : DataFrame) (a b c d : Date) (lo hi lo' hi' : Z) :
  filterDate (filterDate df a b) c d = filterDate df (Z.max a c) (Z.min b d)
  /\ filterHour (filterHour df (lo, hi)) (lo', hi')
     = filterHour df (Z.max lo lo', Z.min hi hi').
Proof.
  unfold filterDate, filterHour; rewrite !filter_filter; cbn [fst snd].
  split; apply filter_ext; intros r.
  - set (x := dt_date (tpep_pickup_datetime r)).
    destruct (x >=? a) eqn:E1, (x <=? b) eqn:E2, (x >=? c) eqn:E3, (x <=? d) eqn:E4,
      (x >=? Z.max a c) eqn:E5, (x <=? Z.min b d) eqn:E6; try reflexivity; exfalso;
      rewrite ?Z.geb_le, ?Z.leb_le, ?Z.leb_gt in *;
      try (rewrite <- not_true_iff_false, Z.geb_le in E1);
      try (rewrite <- not_true_iff_false, Z.geb_le in E3);
      try (rewrite <- not_true_iff_false, Z.geb_le in E5); lia.
  - set (x := pickup_hour r).
    destruct (x >=? lo) eqn:E1, (x <=? hi) eqn:E2, (x >=? lo') eqn:E3, (x <=? hi') eqn:E4,
      (x >=? Z.max lo lo') eqn:E5, (x <=? Z.min hi hi') eqn:E6; try reflexivity; exfalso;
      rewrite ?Z.geb_le, ?Z.leb_le, ?Z.leb_gt in *;
      try (rewrite <- not_true_iff_false, Z.geb_le in E1);
      try (rewrite <- not_true_iff_false, Z.geb_le in E3);
      try (rewrite <- not_true_iff_false, Z.geb_le in E5); lia.
Qed.

Lemma date_ge_iff (t : Timestamp) (d : Date) : d <= dt_date t <-> d * ns_per_day <= t.
Proof.
  unfold dt_date.
  assert (Hpos : 0 < ns_per_day) by reflexivity.
  pose proof (Z.mul_div_le t ns_per_day Hpos).
  split; intros Hd.
  - nia.
  - apply Z.div_le_lower_bound; [assumption | lia].
Qed.

Lemma date_le_iff (t : Timestamp) (d : Date) : dt_date t <= d <-> t < (d + 1) * ns_per_day.
Proof.
  unfold dt_date.
  assert (Hpos : 0 < ns_per_day) by reflexivity.
  pose proof (Z.mul_div_le t ns_per_day Hpos).
  pose proof (Z.mul_succ_div_gt t ns_per_day Hpos).
  split; intros Hd.
  - nia.
  - assert (t / ns_per_day < d + 1); [| lia].
    apply Z.div_lt_upper_bound; [assumption | lia].
Qed.

(** X5. The date filter compares calendar dates, not instants: a record is
    kept exactly when its pickup instant lies from the first instant of the
    start date up to, but not including, the first instant of the day after
    the end date.  A pickup in the last nanosecond of the end date is kept. *)
Theorem filterDate_whole_days (df : DataFrame) (start end_ : Date) (r : Trip) :
  In r (filterDate df start end_) <->
  In r df
  /\ start * ns_per_day <= tpep_pickup_datetime r < (end_ + 1) * ns_per_day.
Proof.
  rewrite filterDate_In, <- date_ge_iff, <- date_le_iff; tauto.
Qed.

(** X6. When the lower hour bound lies above the upper one the hour filter
    returns no record, whatever the records are. *)
Theorem filterHour_inverted_range (df : DataFrame) (lo hi : Z) :
  lo > hi -> filterHour df (lo, hi) = [].
Proof.
  intros Hgt; unfold filterHour; apply filter_none; intros r _; cbn [fst snd].
  apply andb_false_iff.
  destruct (pickup_hour r >=? lo) eqn:E; [right | now left].
  apply Z.geb_le in E; apply Z.leb_gt; lia.
Qed.

Lemma filterHour_inverted_range_witness :
  5 > 3 /\ filterHour sample (5, 3) = [].
Proof.
  split; [lia | apply (@filterHour_inverted_range sample 5 3); lia].
Defined.

(** X7. The payment filter reads the selection as a set: two selections
    with the same members give the same result, whatever their order and
    repetitions; a larger selection keeps at least the records of a smaller
    one; and the empty selection keeps nothing. *)
Theorem filterPaymentType_selection_as_set (df : DataFrame) (sel sel' : list string) :
  ((forall s, In s sel <-> In s sel') ->
     filterPaymentType df sel = filterPaymentType df sel')
  /\ (incl sel sel' -> Subseq (filterPaymentType df sel) (filterPaymentType df sel'))
  /\ filterPaymentType df [] = [].
Proof.
  unfold filterPaymentType; split; [| split].
  - intros Hsame; apply filter_ext; intros r.
    destruct (isin sel (payment_label r)) eqn:E1, (isin sel' (payment_label r)) eqn:E2;
      try reflexivity.
    + apply isin_In, Hsame, isin_In in E1; congruence.
    + apply isin_In, Hsame, isin_In in E2; congruence.
  - intros Hincl; apply filter_Subseq_impl; intros r _ Hr.
    apply isin_In; apply isin_In in Hr; now apply Hincl.
  - apply filter_none; reflexivity.
Qed.

(** ** The widgets' default values *)

Lemma fold_left_Zmin_le (t : list Z) (x : Z) :
  fold_left Z.min t x <= x /\ (forall y, In y t -> fold_left Z.min t x <= y).
Proof.
  revert x; induction t as [| z t IH]; intros x; cbn [fold_left].
  - split; [lia | intros y []].
  - destruct (IH (Z.min x z)) as (H1 & H2); split; [lia |].
    intros y [<- | Hy]; [lia | now apply H2].
Qed.

Lemma fold_left_Zmax_ge (t : list Z) (x : Z) :
  x <= fold_left Z.max t x /\ (forall y, In y t -> y <= fold_left Z.max t x).
Proof.
  revert x; induction t as [| z t IH]; intros x; cbn [fold_left].
  - split; [lia | intros y []].
  - destruct (IH (Z.max x z)) as (H1 & H2); split; [lia |].
    intros y [<- | Hy]; [lia | now apply H2].
Qed.

Lemma series_min_le (l : list Timestamp) (m : Timestamp) :
  series_min l = Some m -> forall x, In x l -> m <= x.
Proof.
  destruct l as [| x0 t]; [discriminate |].
  intros E; injection E as <-.
  destruct (fold_left_Zmin_le t x0) as (H1 & H2).
  intros x [<- | Hx]; [exact H1 | now apply H2].
Qed.

Lemma series_max_ge (l : list Timestamp) (m : Timestamp) :
  series_max l = Some m -> forall x, In x l -> x <= m.
Proof.
  destruct l as [| x0 t]; [discriminate |].
  intros E; injection E as <-.
  destruct (fold_left_Zmax_ge t x0) as (H1 & H2).
  intros x [<- | Hx]; [exact H1 | now apply H2].
Qed.

Lemma dt_date_mono (s t : Timestamp) : s <= t -> dt_date s <= dt_date t.
Proof. intros Hst; unfold dt_date; apply Z.div_le_mono; [reflexivity | exact Hst]. Qed.

Lemma min_date_le (df : DataFrame) (a : Date) :
  min_date df = Some a ->
  forall r, In r df -> a <= dt_date (tpep_pickup_datetime r).
Proof.
  unfold min_date; destruct (series_min (map tpep_pickup_datetime df)) as [m |] eqn:E;
    [| discriminate].
  intros Ea; injection Ea as <-; intros r Hr.
  apply dt_date_mono, (series_min_le _ E), in_map, Hr.
Qed.

Lemma max_date_ge (df : DataFrame) (b : Date) :
  max_date df = Some b ->
  forall r, In r df -> dt_date (tpep_pickup_datetime r) <= b.
Proof.
  unfold max_date; destruct (series_max (map tpep_pickup_datetime df)) as [m |] eqn:E;
    [| discriminate].
  intros Eb; injection Eb as <-; intros r Hr.
  apply dt_date_mono, (series_max_ge _ E), in_map, Hr.
Qed.

Lemma load_pickup_hour (raw : list RawTrip) (r : Trip) :
  In r (load raw) -> 0 <= pickup_hour r <= 23.
Proof.
  unfold load; rewrite in_map_iff; intros (x & <- & _); cbn [derive pickup_hour].
  pose proof (dt_hour_range (raw_pickup_datetime x)); lia.
Qed.

Lemma load_payment_label (raw : list RawTrip) (r : Trip) :
  In r (load raw) -> payment_label r = label_of_payment_type (payment_type r).
Proof.
  unfold load; rewrite in_map_iff; intros (x & <- & _); reflexivity.
Qed.

(** X8. With the widgets left at their defaults -- the date range from the
    earliest to the latest pickup date, the hour range 0 to 23 and every
    label that occurs selected -- the filter stage returns the loaded frame
    unchanged: the dashboard first shows all the data. *)
Theorem default_filters_keep_all (raw : list RawTrip) (a b : Date) :
  min_date (load raw) = Some a ->
  max_date (load raw) = Some b ->
  filtering (load raw) a b default_hrange (available_payments (load raw)) = load raw.
Proof.
  intros Ha Hb; unfold filtering.
  assert (Hd : filterDate (load raw) a b = load raw).
  { unfold filterDate; apply filter_all; intros r Hr.
    apply andb_true_iff; split.
    - apply Z.geb_le, (min_date_le _ Ha), Hr.
    - apply Z.leb_le, (max_date_ge _ Hb), Hr. }
  rewrite Hd.
  assert (Hh : filterHour (load raw) default_hrange = load raw).
  { unfold filterHour, default_hrange; cbn [fst snd]; apply filter_all; intros r Hr.
    pose proof (load_pickup_hour _ _ Hr).
    apply andb_true_iff; split; [apply Z.geb_le | apply Z.leb_le]; lia. }
  rewrite Hh; apply filterPaymentType_default.
Qed.

Lemma default_filters_keep_all_witness :
  let raw := [mkRawTrip (2 * ns_per_day + 5 * ns_per_hour) (2 * ns_per_day + 6 * ns_per_hour)
                "Midtown" 10 12 (3 # 1) (Some 2);
              mkRawTrip (1 * ns_per_day + 23 * ns_per_hour) (2 * ns_per_day)
                "Harlem" 7 9 (2 # 1) None] in
  min_date (load raw) = Some 1
  /\ max_date (load raw) = Some 2
  /\ filtering (load raw) 1 2 default_hrange (available_payments (load raw)) = load raw.
Proof.
  intros raw.
  assert (Ha : min_date (load raw) = Some 1) by reflexivity.
  assert (Hb : max_date (load raw) = Some 2) by reflexivity.
  split; [exact Ha | split; [exact Hb |]].
  exact (@default_filters_keep_all raw 1 2 Ha Hb).
Defined.

(** ** Labels and payment codes *)

Lemma label_of_payment_type_code (pt : option Z) :
  (label_of_payment_type pt = "Credit Card" <-> pt = Some 1)
  /\ (label_of_payment_type pt = "Cash" <-> pt = Some 2)
  /\ (label_of_payment_type pt = "No Charge" <-> pt = Some 3)
  /\ (label_of_payment_type pt = "Dispute" <-> pt = Some 4)
  /\ (label_of_payment_type pt = "Unknown" <->
      pt <> Some 1 /\ pt <> Some 2 /\ pt <> Some 3 /\ pt <> Some 4).
Proof.
  destruct pt as [c |].
  - unfold label_of_payment_type, series_map, payment_map, dict_get.
    destruct (Z.eqb_spec 1 c) as [<- | N1];
      [cbn [fillna]; repeat split; intros; try congruence; try tauto |].
    destruct (Z.eqb_spec 2 c) as [<- | N2];
      [cbn [fillna]; repeat split; intros; try congruence; try tauto |].
    destruct (Z.eqb_spec 3 c) as [<- | N3];
      [cbn [fillna]; repeat split; intros; try congruence; try tauto |].
    destruct (Z.eqb_spec 4 c) as [<- | N4];
      [cbn [fillna]; repeat split; intros; try congruence; try tauto |].
    cbn [fillna]; repeat split; intros; congruence.
  - cbn; repeat split; intros; congruence.
Qed.

Lemma filterPaymentType_single (df : DataFrame) (lbl : string) (r : Trip) :
  In r (filterPaymentType df [lbl]) <-> In r df /\ payment_label r = lbl.
Proof.
  rewrite filterPaymentType_In; cbn [In]; intuition congruence.
Qed.

(** X9. On a loaded frame, selecting a single label filters by payment
    code: Credit Card keeps exactly the records with code 1, Cash code 2,
    No Charge code 3, Dispute code 4, and Unknown keeps exactly the records
    whose code is missing or is none of 1 to 4. *)
Theorem filterPaymentType_label_is_code (raw : list RawTrip) (r : Trip) :
  (In r (filterPaymentType (load raw) ["Credit Card"]) <->
     In r (load raw) /\ payment_type r = Some 1)
  /\ (In r (filterPaymentType (load raw) ["Cash"]) <->
     In r (load raw) /\ payment_type r = Some 2)
  /\ (In r (filterPaymentType (load raw) ["No Charge"]) <->
     In r (load raw) /\ payment_type r = Some 3)
  /\ (In r (filterPaymentType (load raw) ["Dispute"]) <->
     In r (load raw) /\ payment_type r = Some 4)
  /\ (In r (filterPaymentType (load raw) ["Unknown"]) <->
     In r (load raw)
     /\ payment_type r <> Some 1 /\ payment_type r <> Some 2
     /\ payment_type r <> Some 3 /\ payment_type r <> Some 4).
Proof.
  rewrite !filterPaymentType_single.
  destruct (label_of_payment_type_code (payment_type r)) as (H1 & H2 & H3 & H4 & H5).
  pose proof (@load_payment_label raw r) as Hlab.
  split; [| split; [| split; [| split]]];
    (split; intros (Hr & E); (split; [exact Hr |]);
     specialize (Hlab Hr); rewrite Hlab in *; tauto).
Qed.

(** ** Share of the trips shown by the bar chart *)

Lemma list_sum_firstn_le (n : nat) (l : list nat) :
  (list_sum (firstn n l) <= list_sum l)%nat.
Proof.
  revert n; induction l as [| x l IH]; intros [| n]; cbn [firstn].
  - apply Nat.le_refl.
  - apply Nat.le_refl.
  - apply Nat.le_0_l.
  - rewrite !list_sum_head; specialize (IH n); lia.
Qed.

(** X10. The counts shown in the bar chart never add up to more than the
    number of records, and when at most 10 pickup zones are distinct they
    add up to exactly that number: the ten bars then account for every
    trip. *)
Theorem constructBar_shown_trips (df : DataFrame) :
  (list_sum (map snd (data_frame (constructBar df))) <= List.length df)%nat
  /\ ((List.length (distinct (map PU_Zone df)) <= 10)%nat ->
      list_sum (map snd (data_frame (constructBar df))) = List.length df).
Proof.
  unfold constructBar; cbn [data_frame]; unfold constructBar_query, limit.
  destruct (grouped_counts PU_Zone (fun a b => (snd b <=? snd a)%nat) df)
    as (_ & _ & Hsum).
  set (S := order_by (fun a b : string * nat => (snd b <=? snd a)%nat)
              (map (fun g => (fst g, COUNT (snd g))) (group_by PU_Zone df))) in *.
  split.
  - rewrite <- Hsum, <- firstn_map; apply list_sum_firstn_le.
  - intros Hfew; rewrite firstn_all2; [exact Hsum |].
    unfold S; rewrite order_by_length, length_map, group_by_length; exact Hfew.
Qed.

(** ** The heatmap's grid *)

Lemma constructHeat_row_record (df : DataFrame) (d : option string) (h : option Z)
    (c : nat) :
  In (d, h, c) (data_frame (constructHeat df)) ->
  exists r, In r df /\ pickup_cell r = (d, h).
Proof.
  unfold constructHeat; cbn [data_frame]; unfold constructHeat_query; intros Hrow.
  apply order_by_In, in_map_iff in Hrow.
  destruct Hrow as ([k g] & E & Hg); cbn [fst snd] in E; injection E as -> _.
  apply group_by_In in Hg; destruct Hg as (Hk & _).
  apply in_map_iff in Hk; destruct Hk as (r & E & Hr).
  exists r; split; [exact Hr | now rewrite <- constructHeat_key_cell].
Qed.

Lemma length_hours_of_day : List.length hours_of_day = 24%nat.
Proof. unfold hours_of_day; rewrite length_map; apply length_seq. Qed.

Lemma day_of_week_in_day_order (t : Timestamp) : In (day_of_week t) day_order.
Proof.
  unfold day_of_week.
  repeat match goal with
         | |- context [match ?x with _ => _ end] => destruct x
         end; cbn; tauto.
Qed.

Lemma pickup_cell_cases (r : Trip) :
  pickup_cell r = (None, None)
  \/ exists d h, pickup_cell r = (Some d, Some h) /\ In d day_order /\ 0 <= h <= 23.
Proof.
  unfold pickup_cell; destruct (as_engine_reads (tpep_pickup_datetime r)) as [t |];
    cbn [option_map]; [right | now left].
  exists (day_of_week t), (hour_of_day t); split; [reflexivity |].
  split; [apply day_of_week_in_day_order |].
  pose proof (hour_of_day_range t); lia.
Qed.

(** X12. Every row of the heatmap carries one of the seven day names of
    [day_order] and an hour from 0 to 23, or neither a day nor an hour (the
    row of the two extreme timestamps), and no cell has two rows: the
    heatmap never has more than 7 * 24 + 1 = 169 rows, however many records
    it is given. *)
Theorem constructHeat_grid (df : DataFrame) :
  Forall (fun row =>
            fst row = (None, None)
            \/ exists d h, fst row = (Some d, Some h) /\ In d day_order /\ 0 <= h <= 23)
         (data_frame (constructHeat df))
  /\ (List.length (data_frame (constructHeat df)) <= 169)%nat.
Proof.
  assert (Hcell : forall d h c, In (d, h, c) (data_frame (constructHeat df)) ->
            (d, h) = (None, None)
            \/ exists d' h', (d, h) = (Some d', Some h') /\ In d' day_order /\ 0 <= h' <= 23).
  { intros d h c Hrow; apply constructHeat_row_record in Hrow.
    destruct Hrow as (r & _ & <-); apply pickup_cell_cases. }
  split.
  { apply Forall_forall; intros [[d h] c] Hrow; cbn [fst snd]; eapply Hcell, Hrow. }
  assert (Hnd : NoDup (map fst (data_frame (constructHeat df)))).
  { unfold constructHeat; cbn [data_frame]; unfold constructHeat_query.
    apply (grouped_counts
             (fun r : Trip => (DAYNAME (tpep_pickup_datetime r), HOUR (tpep_pickup_datetime r)))
             (fun a b : option string * option Z * nat =>
                nulls_last_leb (snd (fst a)) (snd (fst b))) df). }
  assert (Hincl : incl (map fst (data_frame (constructHeat df)))
                       ((None, None)
                        :: map (fun p => (Some (fst p), Some (snd p)))
                               (list_prod day_order hours_of_day))).
  { intros [d h] Hk; apply in_map_iff in Hk; destruct Hk as ([[d' h'] c] & E & Hrow).
    cbn [fst] in E; injection E as -> ->.
    destruct (Hcell _ _ _ Hrow) as [E | (d' & h' & E & Hd & Hh)]; rewrite E.
    - now left.
    - right; apply in_map_iff; exists (d', h'); split; [reflexivity |].
      apply in_prod; [exact Hd | apply In_hours_of_day; lia]. }
  pose proof (NoDup_incl_length Hnd Hincl) as Hlen.
  cbn [List.length] in Hlen.
  rewrite !length_map, length_prod, length_hours_of_day in Hlen.
  exact Hlen.
Qed.

Lemma load_pickup_cell (raw : list RawTrip) (r : Trip) :
  (forall x, In x raw -> whole_microseconds (raw_pickup_datetime x)) ->
  In r (load raw) ->
  pickup_cell r = (Some (day_of_week (tpep_pickup_datetime r)), Some (pickup_hour r)).
Proof.
  intros Hpre; unfold load; rewrite in_map_iff; intros (x & <- & Hx).
  rewrite whole_microseconds_cell by (apply Hpre, Hx); reflexivity.
Qed.

(** ** Charts drawn from the filtered frame *)

(** X13. On a loaded frame whose pickups are whole microseconds the hour
    filter and the heatmap read the same hour: after the filter stage with
    hour range (lo, hi), every row of the heatmap has an hour, and it lies
    between lo and hi. *)
Theorem constructHeat_within_hour_range
    (raw : list RawTrip) (dstart dend : Date) (lo hi : Z) (selected : list string) :
  (forall x, In x raw -> whole_microseconds (raw_pickup_datetime x)) ->
  Forall (fun row => exists h, snd (fst row) = Some h /\ lo <= h <= hi)
    (data_frame (constructHeat (filtering (load raw) dstart dend (lo, hi) selected))).
Proof.
  intros Hpre; apply Forall_forall; intros [[d h] c] Hrow; cbn [fst snd].
  apply constructHeat_row_record in Hrow; destruct Hrow as (r & Hr & E).
  unfold filtering in Hr.
  apply filterPaymentType_In in Hr; destruct Hr as (Hr & _).
  apply filterHour_In in Hr; destruct Hr as (Hr & Hh); cbn [fst snd] in Hh.
  apply filterDate_In in Hr; destruct Hr as (Hr & _).
  rewrite (@load_pickup_cell raw r Hpre Hr) in E; injection E as _ <-.
  exists (pickup_hour r); split; [reflexivity | exact Hh].
Qed.

Lemma constructHeat_within_hour_range_witness :
  let raw := [mkRawTrip (at_hour 4) (at_hour 5) "A" 10 12 (5 # 1) (Some 2);
              mkRawTrip (at_hour 30) (at_hour 31) "B" 30 32 (5 # 1) (Some 1)] in
  (forall x, In x raw -> whole_microseconds (raw_pickup_datetime x))
  /\ Forall (fun row => exists h, snd (fst row) = Some h /\ 4 <= h <= 6)
       (data_frame (constructHeat
                      (filtering (load raw) 0 1 (4, 6) ["Cash"; "Credit Card"]))).
Proof.
  intros raw.
  assert (Hpre : forall x, In x raw -> whole_microseconds (raw_pickup_datetime x)).
  { intros x [<- | [<- | []]]; reflexivity. }
  split; [exact Hpre |].
  exact (@constructHeat_within_hour_range raw 0 1 4 6 ["Cash"; "Credit Card"] Hpre).
Defined.

(** X14. After the filter stage the pie chart shows selected labels only:
    every label of its rows is a member of the selection. *)
Theorem constructPie_within_selection
    (df : DataFrame) (dstart dend : Date) (hrange : Z * Z) (selected : list string) :
  Forall (fun row => In (fst row) selected)
    (data_frame (constructPie (filtering df dstart dend hrange selected))).
Proof.
  apply Forall_forall; intros [l c] Hrow; cbn [fst].
  unfold constructPie in Hrow; cbn [data_frame] in Hrow; unfold constructPie_result in Hrow.
  apply (grouped_counts payment_label (fun a b => (snd b <=? snd a)%nat)) in Hrow.
  destruct Hrow as (Hl & _).
  apply in_map_iff in Hl; destruct Hl as (r & <- & Hr).
  unfold filtering in Hr; apply filterPaymentType_In in Hr; apply Hr.
Qed.

(** ** How much the histogram's clip keeps *)

Lemma Permutation_filter_length {A : Type} (p : A -> bool) (l1 l2 : list A) :
  Permutation l1 l2 -> List.length (filter p l1) = List.length (filter p l2).
Proof.
  induction 1 as [| x l1 l2 _ IH | x y l | l1 l2 l3 _ IH1 _ IH2]; cbn [filter].
  - reflexivity.
  - destruct (p x); cbn [List.length]; now rewrite IH.
  - destruct (p x), (p y); reflexivity.
  - now rewrite IH1.
Qed.

Lemma filter_map_length {A B : Type} (f : A -> B) (p : B -> bool) (l : list A) :
  List.length (filter (fun x => p (f x)) l) = List.length (filter p (map f l)).
Proof.
  induction l as [| x l IH]; cbn [filter map]; [reflexivity |].
  destruct (p (f x)); cbn [List.length]; now rewrite IH.
Qed.

Lemma In_firstn_nth_error {A : Type} (k : nat) (s : list A) (x : A) :
  In x (firstn k s) -> exists j, (j < k)%nat /\ nth_error s j = Some x.
Proof.
  revert s; induction k as [| k IH]; intros [| y s]; cbn [firstn]; try (intros []).
  - subst; exists 0%nat; split; [lia | reflexivity].
  - destruct (IH s H) as (j & Hj & E); exists (S j); split; [lia | exact E].
Qed.

Lemma sorted_prefix_kept (s : list Q) (i : nat) (a t : Q) :
  StronglySorted Qle s -> nth_error s i = Some a -> (a <= t)%Q ->
  (i + 1 <= List.length (filter (fun x => Qle_bool x t) s))%nat.
Proof.
  intros Hs Ea Hat.
  assert (Hi : (i < List.length s)%nat).
  { apply nth_error_Some; rewrite Ea; discriminate. }
  assert (E : s = (firstn (S i) s ++ skipn (S i) s)%list) by (symmetry; apply firstn_skipn).
  rewrite E, filter_app, length_app.
  assert (Hall : filter (fun x => Qle_bool x t) (firstn (S i) s) = firstn (S i) s).
  { apply filter_all; intros x Hx.
    apply In_firstn_nth_error in Hx; destruct Hx as (j & Hj & Ex).
    apply Qle_bool_iff; apply Qle_trans with a; [| exact Hat].
    apply (StronglySorted_nth_error_le Hs) with (i := j) (j := i);
      [lia | exact Ex | exact Ea]. }
  rewrite Hall, length_firstn; lia.
Qed.

Lemma virtual_index_99 (n : nat) :
  (1 <= n)%nat ->
  Z.to_nat (Qfloor (inject_Z (Z.of_nat n - 1) * (99 # 100))) = ((99 * (n - 1)) / 100)%nat.
Proof.
  intros Hn.
  assert (E : Qfloor (inject_Z (Z.of_nat n - 1) * (99 # 100))
              = (Z.of_nat n - 1) * 99 / 100) by reflexivity.
  rewrite E.
  replace ((Z.of_nat n - 1) * 99) with (Z.of_nat (99 * (n - 1))) by lia.
  change 100 with (Z.of_nat 100).
  rewrite <- Nat2Z.inj_div; apply Nat2Z.id.
Qed.

(** X15. Of n >= 1 records the histogram keeps at least
    floor(0.99 * (n - 1)) + 1: the record at that position of the ascending
    distances and every record before it lie at or below the percentile
    threshold.  The clip never removes more than about one record in a
    hundred. *)
Theorem constructHist_keeps_99_percent (df : DataFrame) :
  df <> [] ->
  ((99 * (List.length df - 1)) / 100 + 1
   <= List.length (data_frame (constructHist df)))%nat.
Proof.
  intros Hne.
  assert (Hl : map trip_distance df <> []).
  { intros E; apply map_eq_nil in E; contradiction. }
  assert (Hq : (0 <= 99 # 100 <= 1)%Q) by (split; lra).
  destruct (quantile_interpolation Hl Hq) as (a & b & g & Ea & _ & _ & Hg & Hab & E).
  unfold constructHist; cbn [data_frame]; rewrite E; cbn [le_nan].
  rewrite (filter_map_length trip_distance (fun x => Qle_bool x (a + (b - a) * g)) df).
  rewrite <- (Permutation_filter_length _ (order_by_perm Qle_bool (map trip_distance df))).
  rewrite virtual_index_99 in Ea.
  - rewrite length_map in Ea.
    apply sorted_prefix_kept with (a := a);
      [apply order_by_Qle_sorted | exact Ea | nra].
  - rewrite length_map; destruct df; [congruence | cbn [List.length]; lia].
Qed.

Lemma constructHist_keeps_99_percent_witness :
  sample <> []
  /\ ((99 * (List.length sample - 1)) / 100 + 1
      <= List.length (data_frame (constructHist sample)))%nat.
Proof.
  assert (Hne : sample <> []) by discriminate.
  split; [exact Hne | exact (@constructHist_keeps_99_percent sample Hne)].
Defined.

(** ** Empty charts *)

Lemma distinct_nil_iff {K : Type} `{EqKey K} (l : list K) : distinct l = [] <-> l = [].
Proof. destruct l; cbn [distinct]; split; intros E; try reflexivity; discriminate. Qed.

Lemma grouped_rows_nil_iff {Row K V : Type} `{EqKey K}
    (key : Row -> K) (agg : K * list Row -> V) (leb : V -> V -> bool) (rows : list Row) :
  order_by leb (map agg (group_by key rows)) = [] <-> rows = [].
Proof.
  split.
  - intros E; apply order_by_nil_inv, map_eq_nil in E.
    unfold group_by in E; apply map_eq_nil, distinct_nil_iff, map_eq_nil in E; exact E.
  - intros ->; reflexivity.
Qed.

(** X16. Each of the five charts has no rows exactly when the frame it is
    built from has no records: an empty frame is drawn as an empty chart
    without a fault, and any record at all gives every chart something to
    draw. *)
Theorem charts_empty_iff (df : DataFrame) :
  (data_frame (constructBar df) = [] <-> df = [])
  /\ (data_frame (constructLine df) = [] <-> df = [])
  /\ (data_frame (constructHist df) = [] <-> df = [])
  /\ (data_frame (constructPie df) = [] <-> df = [])
  /\ (data_frame (constructHeat df) = [] <-> df = []).
Proof.
  split; [| split; [| split; [| split]]].
  - unfold constructBar; cbn [data_frame]; unfold constructBar_query, limit.
    rewrite <- (grouped_rows_nil_iff PU_Zone
                  (fun g : string * list Trip => (fst g, COUNT (snd g)))
                  (fun a b => (snd b <=? snd a)%nat) df).
    destruct (order_by _ _); cbn [firstn]; split; intros E; try reflexivity; discriminate.
  - unfold constructLine; cbn [data_frame]; unfold constructLine_query.
    apply grouped_rows_nil_iff.
  - split; [| intros ->; reflexivity].
    intros E; destruct df as [| r0 df']; [reflexivity | exfalso].
    assert (Hl : map trip_distance (r0 :: df') <> []) by discriminate.
    assert (Hq : (0 <= 99 # 100 <= 1)%Q) by (split; lra).
    destruct (quantile_bounds Hl Hq) as (t & m & _ & Et & Hm & _ & Hmt & _).
    apply in_map_iff in Hm; destruct Hm as (r & <- & Hr).
    assert (Hin : In r (data_frame (constructHist (r0 :: df')))).
    { apply constructHist_In; split; [exact Hr | exists t; split; assumption]. }
    rewrite E in Hin; destruct Hin.
  - unfold constructPie; cbn [data_frame]; unfold constructPie_result.
    apply grouped_rows_nil_iff.
  - unfold constructHeat; cbn [data_frame]; unfold constructHeat_query.
    apply grouped_rows_nil_iff.
Qed.

(** ** What the clip removes *)

(** X17. The histogram's clip removes the longest trips: every record it
    leaves out has a strictly greater distance than every record it keeps. *)
Theorem constructHist_removes_farthest (df : DataFrame) (r r' : Trip) :
  In r df -> ~ In r (data_frame (constructHist df)) ->
  In r' (data_frame (constructHist df)) ->
  (trip_distance r' < trip_distance r)%Q.
Proof.
  intros Hr Hout Hkept.
  apply constructHist_In in Hkept; destruct Hkept as (_ & t & Et & Hle).
  apply Qle_lt_trans with (y := t); [exact Hle |].
  apply Qnot_le_lt; intros Hrt; apply Hout.
  apply constructHist_In; split; [exact Hr | exists t; split; assumption].
Qed.

Lemma constructHist_removes_farthest_witness :
  let near := trip (at_hour 1) (at_hour 2) "A" 10 1 (Some 1) in
  let far := trip (at_hour 3) (at_hour 4) "B" 20 2 (Some 2) in
  In far [near; far]
  /\ ~ In far (data_frame (constructHist [near; far]))
  /\ In near (data_frame (constructHist [near; far]))
  /\ (trip_distance near < trip_distance far)%Q.
Proof.
  intros near far.
  assert (Hkept : data_frame (constructHist [near; far]) = [near])
    by (vm_compute; reflexivity).
  assert (H1 : In far [near; far]) by (right; left; reflexivity).
  assert (H2 : ~ In far (data_frame (constructHist [near; far]))).
  { rewrite Hkept; intros [E | []]; discriminate E. }
  assert (H3 : In near (data_frame (constructHist [near; far]))).
  { rewrite Hkept; left; reflexivity. }
  split; [exact H1 | split; [exact H2 | split; [exact H3 |]]].
  exact (@constructHist_removes_farthest [near; far] far near H1 H2 H3).
Defined.

(** ** The default date range *)

Lemma fold_left_Zmin_In (t : list Z) (x : Z) : In (fold_left Z.min t x) (x :: t).
Proof.
  revert x; induction t as [| z t IH]; intros x; cbn [fold_left]; [now left |].
  destruct (IH (Z.min x z)) as [E | Hin].
  - rewrite <- E; destruct (Z.min_spec x z) as [(_ & ->) | (_ & ->)];
      [now left | right; now left].
  - right; now right.
Qed.

Lemma fold_left_Zmax_In (t : list Z) (x : Z) : In (fold_left Z.max t x) (x :: t).
Proof.
  revert x; induction t as [| z t IH]; intros x; cbn [fold_left]; [now left |].
  destruct (IH (Z.max x z)) as [E | Hin].
  - rewrite <- E; destruct (Z.max_spec x z) as [(_ & ->) | (_ & ->)];
      [right; now left | now left].
  - right; now right.
Qed.

(** X18. For a frame with at least one record the default date range
    exists and is in order: [min_date] and [max_date] are the pickup dates
    of two of the records, [min_date] is not after [max_date], and every
    record's pickup date lies between them. *)
Theorem default_date_range (df : DataFrame) :
  df <> [] ->
  exists a b,
    min_date df = Some a /\ max_date df = Some b /\ a <= b
    /\ (exists r, In r df /\ dt_date (tpep_pickup_datetime r) = a)
    /\ (exists r, In r df /\ dt_date (tpep_pickup_datetime r) = b)
    /\ (forall r, In r df -> a <= dt_date (tpep_pickup_datetime r) <= b).
Proof.
  intros Hne; destruct df as [| r0 df']; [congruence |].
  set (df := r0 :: df') in *.
  assert (Ea : min_date df
               = Some (dt_date (fold_left Z.min (map tpep_pickup_datetime df')
                                  (tpep_pickup_datetime r0)))) by reflexivity.
  assert (Eb : max_date df
               = Some (dt_date (fold_left Z.max (map tpep_pickup_datetime df')
                                  (tpep_pickup_datetime r0)))) by reflexivity.
  pose proof (min_date_le _ Ea) as Hlo.
  pose proof (max_date_ge _ Eb) as Hhi.
  eexists; eexists.
  split; [exact Ea |]. split; [exact Eb |].
  split.
  { specialize (Hlo r0 (or_introl eq_refl)); specialize (Hhi r0 (or_introl eq_refl)); lia. }
  split.
  { pose proof (fold_left_Zmin_In (map tpep_pickup_datetime df') (tpep_pickup_datetime r0))
      as Hin.
    change (tpep_pickup_datetime r0 :: map tpep_pickup_datetime df')
      with (map tpep_pickup_datetime df) in Hin.
    apply in_map_iff in Hin; destruct Hin as (r & E & Hr).
    exists r; split; [exact Hr | now rewrite E]. }
  split.
  { pose proof (fold_left_Zmax_In (map tpep_pickup_datetime df') (tpep_pickup_datetime r0))
      as Hin.
    change (tpep_pickup_datetime r0 :: map tpep_pickup_datetime df')
      with (map tpep_pickup_datetime df) in Hin.
    apply in_map_iff in Hin; destruct Hin as (r & E & Hr).
    exists r; split; [exact Hr | now rewrite E]. }
  intros r Hr; split; [now apply Hlo | now apply Hhi].
Qed.

Lemma default_date_range_witness :
  sample <> []
  /\ exists a b,
       min_date sample = Some a /\ max_date sample = Some b /\ a <= b
       /\ (exists r, In r sample /\ dt_date (tpep_pickup_datetime r) = a)
       /\ (exists r, In r sample /\ dt_date (tpep_pickup_datetime r) = b)
       /\ (forall r, In r sample -> a <= dt_date (tpep_pickup_datetime r) <= b).
Proof.
  assert (Hne : sample <> []) by discriminate.
  split; [exact Hne | exact (@default_date_range sample Hne)].
Defined.
